(** * The Lightning donation scripts: [lnd_client.py] and [create_invoice.py]

    A shallow embedding of the REST client class [LNDClient], of the JSON
    command line program at the bottom of [lnd_client.py] and of the
    interactive program [create_invoice.py], together with the properties
    their specification states about them.

    The scripts talk to the file system, to the network and to the
    console.  These are made explicit: a [World] answers the questions the
    code asks (what is in a file, what does the node reply), and a [State]
    records what the code did (files opened, requests issued, text
    written).  Exceptions are values; a computation either returns or
    raises. *)

From Stdlib Require Import ZArith NArith List Bool Lia.
From Stdlib.Strings Require Import String Ascii Byte.
From Stdlib Require Import DecimalString.
Import ListNotations.

#[local] Set Warnings "-register-all".

Open Scope list_scope.
Open Scope string_scope.
Open Scope Z_scope.

(** ** Python values *)

(** A Python [float]: a finite binary fraction [m * 2^e], an infinity or a
    NaN (the JSON decoder of Python accepts the last two). *)
Inductive pyfloat : Type :=
| FFinite (m e : Z)
| FInf (negative : bool)
| FNaN.

(** What [response.json()] can return: the "untyped key-value record" of
    the specification, and any other JSON document.  A [dict] keeps its
    insertion order. *)
Inductive json : Type :=
| JNull
| JBool (b : bool)
| JInt (z : Z)
| JFloat (f : pyfloat)
| JStr (s : string)
| JList (l : list json)
| JObj (kv : list (string * json)).

(** [str(n)] for an [int]. *)
Definition str_of_int (z : Z) : string :=
  NilZero.string_of_int (Z.to_int z).

(** [d.get(key)] and [d[key]] on the items of a [dict]. *)
Fixpoint dict_lookup (key : string) (kv : list (string * json)) : option json :=
  match kv with
  | [] => None
  | (k, v) :: rest => if String.eqb k key then Some v else dict_lookup key rest
  end.

(** [d[key] = v]: an existing key keeps its place, a new one goes last. *)
Fixpoint dict_set (key : string) (v : json) (kv : list (string * json))
  : list (string * json) :=
  match kv with
  | [] => [(key, v)]
  | (k, v0) :: rest =>
      if String.eqb k key then (k, v) :: rest else (k, v0) :: dict_set key v rest
  end.

(** Truth value of an object, as [if x:] and [not x] test it. *)
Definition truthy (v : json) : bool :=
  match v with
  | JNull => false
  | JBool b => b
  | JInt z => negb (z =? 0)
  | JFloat (FFinite m _) => negb (m =? 0)
  | JFloat _ => true
  | JStr s => negb (String.eqb s "")
  | JList l => match l with [] => false | _ => true end
  | JObj kv => match kv with [] => false | _ => true end
  end.

(** ** Exceptions *)

(** The exception classes the scripts can meet.  [OtherException] stands
    for any further subclass of [Exception]. *)
Inductive exn_class : Type :=
| OSError
| FileNotFoundError
| PermissionError
| RequestException
| ConnectionError
| SSLError
| Timeout
| HTTPError
| JSONDecodeError
| UnboundLocalError
| KeyError
| TypeError
| AttributeError
| ValueError
| UnicodeDecodeError
| BinasciiError
| EOFError
| OtherException (name : string)
| SystemExit (code : Z).

Record exn : Type := mkExn { exn_cls : exn_class; exn_msg : string }.

(** [isinstance(e, requests.exceptions.RequestException)]. *)
Definition is_RequestException (e : exn) : bool :=
  match exn_cls e with
  | RequestException | ConnectionError | SSLError | Timeout
  | HTTPError | JSONDecodeError => true
  | _ => false
  end.

(** [isinstance(e, Exception)]: [SystemExit] derives from [BaseException]
    directly, the others from [Exception]. *)
Definition is_Exception (e : exn) : bool :=
  match exn_cls e with
  | SystemExit _ => false
  | _ => true
  end.

(** [isinstance(e, ValueError)]; [UnicodeDecodeError] and
    [binascii.Error] derive from it. *)
Definition is_ValueError (e : exn) : bool :=
  match exn_cls e with
  | ValueError | UnicodeDecodeError | BinasciiError => true
  | _ => false
  end.

(** The failures of the transport: no response object ever came back. *)
Definition is_transport_failure (e : exn) : bool :=
  match exn_cls e with
  | ConnectionError | SSLError | Timeout => true
  | _ => false
  end.

(** ** Bytes as text *)

Definition hex_digit (n : N) : ascii :=
  match String.get (N.to_nat n) "0123456789abcdef" with
  | Some c => c
  | None => "0"%char
  end.

(** Two lower case hexadecimal digits per byte: [bytes.hex()] and
    [codecs.encode(b, 'hex')]. *)
Fixpoint hex (bs : list byte) : string :=
  match bs with
  | [] => ""
  | b :: rest =>
      String (hex_digit (N.shiftr (Byte.to_N b) 4))
        (String (hex_digit (N.land (Byte.to_N b) 15)) (hex rest))
  end.

(** The value of a hexadecimal digit. *)
Definition unhex_digit (c : ascii) : N :=
  let n := N_of_ascii c in
  (if (48 <=? n) && (n <=? 57) then n - 48
   else if (97 <=? n) && (n <=? 102) then n - 87
   else 0)%N.

(** [bytes.fromhex], the way back from [hex]. *)
Fixpoint unhex (s : string) : list byte :=
  match s with
  | String h (String l rest) =>
      match Byte.of_N (16 * unhex_digit h + unhex_digit l) with
      | Some b => b :: unhex rest
      | None => []
      end
  | _ => []
  end.

(** ** Base 64, as the [base64] and [binascii] modules of Python do it *)

Definition b64_alphabet : string :=
  "ABCDEFGHIJKLMNOPQRSTUVWXYZabcdefghijklmnopqrstuvwxyz0123456789+/".

(** The character of a six-bit group. *)
Definition b2a (n : N) : ascii :=
  match String.get (N.to_nat n) b64_alphabet with
  | Some c => c
  | None => "="%char
  end.

(** The six-bit group of a character of the alphabet. *)
Definition a2b (c : ascii) : option N :=
  let n := N_of_ascii c in
  (if (65 <=? n) && (n <=? 90) then Some (n - 65)
   else if (97 <=? n) && (n <=? 122) then Some (n - 71)
   else if (48 <=? n) && (n <=? 57) then Some (n + 4)
   else if n =? 43 then Some 62
   else if n =? 47 then Some 63
   else None)%N.

(** Storing into an [unsigned char] keeps the low eight bits. *)
Definition byte_of_N (n : N) : byte :=
  match Byte.of_N (N.land n 255) with
  | Some b => b
  | None => x00
  end.

(** The six-bit groups of one, two and three bytes. *)
Definition sextet0 (x : N) : N := N.shiftr x 2.
Definition sextet1 (x y : N) : N := N.lor (N.shiftl (N.land x 3) 4) (N.shiftr y 4).
Definition sextet2 (y z : N) : N := N.lor (N.shiftl (N.land y 15) 2) (N.shiftr z 6).
Definition sextet3 (z : N) : N := N.land z 63.

(** [base64.b64encode]: three bytes give four characters, and a last
    group of one or two bytes is padded with ['=']. *)
Fixpoint b64encode (bs : list byte) : string :=
  match bs with
  | [] => ""
  | [a] =>
      let x := Byte.to_N a in
      String (b2a (sextet0 x)) (String (b2a (sextet1 x 0)) "==")
  | [a; b] =>
      let x := Byte.to_N a in
      let y := Byte.to_N b in
      String (b2a (sextet0 x)) (String (b2a (sextet1 x y))
        (String (b2a (sextet2 y 0)) "="))
  | a :: b :: c :: rest =>
      let x := Byte.to_N a in
      let y := Byte.to_N b in
      let z := Byte.to_N c in
      String (b2a (sextet0 x)) (String (b2a (sextet1 x y))
        (String (b2a (sextet2 y z)) (String (b2a (sextet3 z))
          (b64encode rest))))
  end.

Definition emit (b : byte) (r : exn + list byte) : exn + list byte :=
  match r with
  | inl e => inl e
  | inr l => inr (b :: l)
  end.

(** [binascii.a2b_base64] without [strict_mode]: the loop over the input
    with its state [quad_pos], [leftchar] and [pads]; [ndata] counts the
    characters of the alphabet met so far.  Characters outside the
    alphabet are skipped, a completed pad sequence ends the decoding. *)
Fixpoint a2b_base64 (s : string) (quad_pos : nat) (leftchar : N)
    (pads ndata : nat) : exn + list byte :=
  match s with
  | EmptyString =>
      match quad_pos with
      | O => inr []
      | S O =>
          inl (mkExn BinasciiError
                 ("Invalid base64-encoded string: number of data characters ("
                    ++ str_of_int (Z.of_nat ndata)
                    ++ ") cannot be 1 more than a multiple of 4"))
      | _ => inl (mkExn BinasciiError "Incorrect padding")
      end
  | String this_ch rest =>
      if Ascii.eqb this_ch "=" then
        if (2 <=? quad_pos)%nat then
          if (4 <=? quad_pos + S pads)%nat then inr []
          else a2b_base64 rest quad_pos leftchar (S pads) ndata
        else a2b_base64 rest quad_pos leftchar pads ndata
      else
        match a2b this_ch with
        | None => a2b_base64 rest quad_pos leftchar pads ndata
        | Some this_ch =>
            match quad_pos with
            | 0%nat => a2b_base64 rest 1 this_ch 0 (S ndata)
            | 1%nat =>
                emit (byte_of_N (N.lor (N.shiftl leftchar 2) (N.shiftr this_ch 4)))
                  (a2b_base64 rest 2 (N.land this_ch 15) 0 (S ndata))
            | 2%nat =>
                emit (byte_of_N (N.lor (N.shiftl leftchar 4) (N.shiftr this_ch 2)))
                  (a2b_base64 rest 3 (N.land this_ch 3) 0 (S ndata))
            | _ =>
                emit (byte_of_N (N.lor (N.shiftl leftchar 6) this_ch))
                  (a2b_base64 rest 0 0 0 (S ndata))
            end
        end
  end.

Fixpoint all_ascii (s : string) : bool :=
  match s with
  | EmptyString => true
  | String c rest => (N_of_ascii c <? 128)%N && all_ascii rest
  end.

(** [base64.b64decode(s)] on a [str]: the text must be ASCII, then
    [binascii] decodes it. *)
Definition b64decode (s : string) : exn + list byte :=
  if all_ascii s then a2b_base64 s 0 0 0 0
  else inl (mkExn ValueError
              "string argument should contain only ASCII characters").

(** The name of the class of a value, for the messages of [TypeError]. *)
Definition class_name (v : json) : string :=
  match v with
  | JNull => "NoneType"
  | JBool _ => "bool"
  | JInt _ => "int"
  | JFloat _ => "float"
  | JStr _ => "str"
  | JList _ => "list"
  | JObj _ => "dict"
  end.

(** [base64.b64decode(v)] on whatever the response holds. *)
Definition b64decode_value (v : json) : exn + list byte :=
  match v with
  | JStr s => b64decode s
  | _ =>
      inl (mkExn TypeError
             ("argument should be a bytes-like object or ASCII string, not '"
                ++ class_name v ++ "'"))
  end.

(** Base 64 text in canonical form: groups of four characters of the
    alphabet, the last group possibly ending in one or two ['='], in which
    case the bits that encode no byte are zero.  These are the texts
    [b64encode] produces. *)
Fixpoint canonical_b64 (s : string) : bool :=
  match s with
  | EmptyString => true
  | String c0 (String c1 (String c2 (String c3 rest))) =>
      match a2b c0, a2b c1 with
      | Some _, Some n1 =>
          match a2b c2, a2b c3 with
          | Some _, Some _ => canonical_b64 rest
          | Some n2, None =>
              Ascii.eqb c3 "=" && (N.land n2 3 =? 0)%N && String.eqb rest ""
          | None, _ =>
              Ascii.eqb c2 "=" && Ascii.eqb c3 "=" && (N.land n1 15 =? 0)%N
                && String.eqb rest ""
          end
      | _, _ => false
      end
  | _ => false
  end.

(** The bytes the decoder stores for the six-bit groups it reads, as
    numbers. *)
Definition octet0 (n0 n1 : N) : N :=
  N.land (N.lor (N.shiftl n0 2) (N.shiftr n1 4)) 255.
Definition octet1 (n1 n2 : N) : N :=
  N.land (N.lor (N.shiftl (N.land n1 15) 4) (N.shiftr n2 2)) 255.
Definition octet2 (n2 n3 : N) : N :=
  N.land (N.lor (N.shiftl (N.land n2 3) 6) n3) 255.

(** [P] holds of every number below [k]: a check by enumeration. *)
Definition below (k : nat) (P : N -> bool) : bool :=
  forallb P (map N.of_nat (seq 0 k)).

(** ** The outside world and the trace of a run *)

Record Request : Type := mkRequest {
  req_method : string;
  req_url : string;
  req_json : option json;
  req_headers : list (string * string);
  req_verify : string
}.

(** A [requests.Response]: [json_body] is what [response.json()] gives,
    a value or the exception it raises. *)
Record Response : Type := mkResponse {
  status_code : Z;
  reason : string;
  text : string;
  json_body : exn + json
}.

(** What [requests.request] does with a request: it raises, or a response
    object comes back, whatever its status. *)
Inductive http_outcome : Type :=
| Raises (e : exn)
| Responds (r : Response).

Record World : Type := mkWorld {
  (** [os.environ.get] *)
  environ : string -> option string;
  (** [os.path.dirname(os.path.abspath(__file__))] *)
  base_path : string;
  (** [open(path, 'rb')] followed by [read()] *)
  read_file : string -> exn + list byte;
  (** the reply to a request, given the requests made before it *)
  http : list Request -> Request -> http_outcome
}.

(** What goes to standard output: a line of text written by [print], a
    value written by [print(json.dumps(v))], the prompt of [input]. *)
Inductive output : Type :=
| OutText (s : string)
| OutJson (v : json)
| OutPrompt (s : string).

(** Standard input is what the calls of [input] meet, one after the
    other: a line, or the exception the call raises in its place (a
    [UnicodeDecodeError] for bytes that do not decode, a [RuntimeError]
    for a console that is gone). *)
Record State : Type := mkState {
  stdin : list (exn + string);
  stdout : list output;
  stderr : list string;
  opened : list string;
  requests : list Request
}.

(** The state a program starts in, with these lines to be read. *)
Definition initial (lines : list string) : State :=
  mkState (map inr lines) [] [] [] [].

(** ** Computations that may raise *)

Definition M (A : Type) : Type := State -> (exn + A) * State.

Definition ret {A} (a : A) : M A := fun s => (inr a, s).

Definition raise {A} (e : exn) : M A := fun s => (inl e, s).

Definition bind {A B} (m : M A) (k : A -> M B) : M B :=
  fun s =>
    match m s with
    | (inl e, s') => (inl e, s')
    | (inr a, s') => k a s'
    end.

Notation "x <- m ;; k" := (bind m (fun x => k))
  (at level 61, m at next level, right associativity).
Notation "m ;; k" := (bind m (fun _ => k))
  (at level 61, right associativity).

(** [try: body  except cls as e: handler e]. *)
Definition try_except {A} (body : M A) (catches : exn -> bool)
    (handler : exn -> M A) : M A :=
  fun s =>
    match body s with
    | (inl e, s') => if catches e then handler e s' else (inl e, s')
    | (inr a, s') => (inr a, s')
    end.

Definition print (s : string) : M unit :=
  fun st => (inr tt, mkState (stdin st) (stdout st ++ [OutText s])%list
                        (stderr st) (opened st) (requests st)).

(** [print(json.dumps(v))] *)
Definition print_json (v : json) : M unit :=
  fun st => (inr tt, mkState (stdin st) (stdout st ++ [OutJson v])%list
                        (stderr st) (opened st) (requests st)).

(** [print(s, file=sys.stderr)] *)
Definition eprint (s : string) : M unit :=
  fun st => (inr tt, mkState (stdin st) (stdout st)
                        (stderr st ++ [s])%list (opened st) (requests st)).

(** [sys.exit(code)] *)
Definition sys_exit {A} (code : Z) : M A :=
  raise (mkExn (SystemExit code) (str_of_int code)).

(** [input(prompt)]: the prompt is written, then a line is read, or the
    exception standard input holds in its place is raised; at the end of
    the input [EOFError] is raised. *)
Definition input (prompt : string) : M string :=
  fun st =>
    let out := (stdout st ++ [OutPrompt prompt])%list in
    match stdin st with
    | [] =>
        (inl (mkExn EOFError "EOF when reading a line"),
         mkState [] out (stderr st) (opened st) (requests st))
    | inl e :: rest =>
        (inl e, mkState rest out (stderr st) (opened st) (requests st))
    | inr line :: rest =>
        (inr line, mkState rest out (stderr st) (opened st) (requests st))
    end.

Definition lift {A} (r : exn + A) : M A :=
  match r with
  | inl e => raise e
  | inr a => ret a
  end.

(** The status the process ends with: 0 when the script runs to its end,
    the argument of [sys.exit], and 1 when any other exception reaches the
    top (the interpreter prints the traceback). *)
Definition exit_status {A} (r : exn + A) : Z :=
  match r with
  | inr _ => 0
  | inl e =>
      match exn_cls e with
      | SystemExit code => code
      | _ => 1
      end
  end.

(** [obj.get(key, default)]: a method of [dict] only. *)
Definition get_method (obj : json) (key : string) (default : json) : M json :=
  match obj with
  | JObj kv =>
      match dict_lookup key kv with
      | Some v => ret v
      | None => ret default
      end
  | _ =>
      raise (mkExn AttributeError
               ("'" ++ class_name obj ++ "' object has no attribute 'get'"))
  end.

(** [obj[key]] with a [str] key. *)
Definition getitem (obj : json) (key : string) : M json :=
  match obj with
  | JObj kv =>
      match dict_lookup key kv with
      | Some v => ret v
      | None => raise (mkExn KeyError ("'" ++ key ++ "'"))
      end
  | JList _ =>
      raise (mkExn TypeError "list indices must be integers or slices, not str")
  | JStr _ =>
      raise (mkExn TypeError "string indices must be integers, not 'str'")
  | _ =>
      raise (mkExn TypeError
               ("'" ++ class_name obj ++ "' object is not subscriptable"))
  end.

(** [obj[key] = v] with a [str] key. *)
Definition setitem (obj : json) (key : string) (v : json) : M json :=
  match obj with
  | JObj kv => ret (JObj (dict_set key v kv))
  | _ =>
      raise (mkExn TypeError
               ("'" ++ class_name obj
                  ++ "' object does not support item assignment"))
  end.

(** ** [LNDClient] *)

(** [os.path.join] on POSIX paths. *)
Definition ends_with_slash (s : string) : bool :=
  match String.get (String.length s - 1)%nat s with
  | Some c => Ascii.eqb c "/"
  | None => false
  end.

Definition path_join (a b : string) : string :=
  if String.prefix "/" b then b
  else if String.eqb a "" || ends_with_slash a then a ++ b
  else a ++ "/" ++ b.

Definition environ_get (w : World) (name default : string) : string :=
  match environ w name with
  | Some v => v
  | None => default
  end.

Record LNDClient : Type := mkLNDClient {
  cert_path : string;
  macaroon_path : string;
  api_endpoint : string
}.

(** [LNDClient.__init__] *)
Definition LNDClient_init (w : World) : LNDClient :=
  let config_path := path_join (path_join (base_path w) "..") "config" in
  {| cert_path :=
       environ_get w "LND_CERT_PATH" (path_join config_path "tls.cert");
     macaroon_path :=
       environ_get w "LND_MACAROON_PATH" (path_join config_path "admin.macaroon");
     api_endpoint := environ_get w "LND_REST_API" "https://127.0.0.1:8083" |}.

(** [open(path, 'rb')] and [f.read()]. *)
Definition open_read (w : World) (path : string) : M (list byte) :=
  fun st =>
    let st' := mkState (stdin st) (stdout st) (stderr st)
                 (opened st ++ [path])%list (requests st) in
    match read_file w path with
    | inl e => (inl e, st')
    | inr data => (inr data, st')
    end.

(** [LNDClient.get_headers] *)
Definition get_headers (w : World) (self : LNDClient)
  : M (list (string * string)) :=
  macaroon_bytes <- open_read w (macaroon_path self) ;;
  let macaroon_hex := hex macaroon_bytes in
  ret [("Grpc-Metadata-macaroon", macaroon_hex)].

(** [requests.request(method, url, json=data, headers=headers,
    verify=...)]: the request is handed to the library and logged; the
    world says what comes of it. *)
Definition requests_request (w : World) (rq : Request) : M Response :=
  fun st =>
    let st' := mkState (stdin st) (stdout st) (stderr st) (opened st)
                 (requests st ++ [rq])%list in
    match http w (requests st) rq with
    | Raises e => (inl e, st')
    | Responds r => (inr r, st')
    end.

(** [Response.raise_for_status] of the [requests] library: the message is
    set for the statuses 400 to 599 only, and an [HTTPError] is raised when
    it is set. *)
Definition http_error_msg (url : string) (r : Response) : string :=
  if (400 <=? status_code r) && (status_code r <? 500) then
    str_of_int (status_code r) ++ " Client Error: " ++ reason r
      ++ " for url: " ++ url
  else if (500 <=? status_code r) && (status_code r <? 600) then
    str_of_int (status_code r) ++ " Server Error: " ++ reason r
      ++ " for url: " ++ url
  else EmptyString.

Definition raise_for_status (url : string) (r : Response) : M unit :=
  let msg := http_error_msg url r in
  if truthy (JStr msg) then raise (mkExn HTTPError msg) else ret tt.

(** [response.json()] *)
Definition response_json (r : Response) : M json :=
  match json_body r with
  | inl e => raise e
  | inr v => ret v
  end.

(** Reading a local variable that no assignment has reached. *)
Definition unbound_local (name : string) : exn :=
  mkExn UnboundLocalError
    ("cannot access local variable '" ++ name
       ++ "' where it is not associated with a value").

(** The [except requests.exceptions.RequestException as e:] block of
    [_request].  The local [response] is bound only once the assignment
    [response = requests.request(...)] has completed: [None] here is the
    unbound local, which the test [response is not None] then reads. *)
Definition request_handler {A} (response : option Response) (e : exn) : M A :=
  eprint ("Error connecting to LND: " ++ exn_msg e) ;;
  match response with
  | None => raise (unbound_local "response")
  | Some r =>
      eprint ("Response: " ++ text r) ;;
      raise e
  end.

(** [LNDClient._request].  The one [try] block is cut where [response]
    gets bound: the same handler guards both halves, and is told whether
    the assignment has happened. *)
Definition _request (w : World) (self : LNDClient)
    (method endpoint : string) (data : option json) : M json :=
  let url := api_endpoint self ++ endpoint in
  headers <- get_headers w self ;;
  response <-
    try_except
      (requests_request w (mkRequest method url data headers (cert_path self)))
      is_RequestException (request_handler None) ;;
  try_except
    (raise_for_status url response ;; response_json response)
    is_RequestException (request_handler (Some response)).

(** [LNDClient.get_info] *)
Definition get_info (w : World) (self : LNDClient) : M json :=
  _request w self "GET" "/v1/getinfo" None.

(** [LNDClient.add_invoice] *)
Definition add_invoice (w : World) (self : LNDClient)
    (amount : Z) (memo : string) : M json :=
  let data := JObj [("value", JInt amount); ("memo", JStr memo)] in
  _request w self "POST" "/v1/invoices" (Some data).

(** ** The JSON command line program of [lnd_client.py] *)

Inductive command : Type := Info | Invoice.

(** The namespace [argparse] builds: [--amount] is [None] when absent,
    [--memo] has had its default, Donation, filled in. *)
Record cli_args : Type := mkCliArgs {
  args_command : command;
  args_amount : option Z;
  args_memo : string
}.

Section JsonProgram.

(** The image the [qrcode] and [Pillow] libraries make of the data:
    [add_data], [make(fit=True)], [make_image] and [save(format="PNG")],
    ending in the bytes of the PNG file or in an exception. *)
Variable qr_png : json -> exn + list byte.

(** [LNDClient.generate_qr_base64] *)
Definition generate_qr_base64 (data : json) : M string :=
  buffered <- lift (qr_png data) ;;
  let img_str := b64encode buffered in
  ret img_str.

(** The branch taken when [not args.amount] holds. *)
Definition amount_missing : M unit :=
  print_json (JObj [("error", JStr "Amount is required for invoice")]) ;;
  sys_exit 1.

(** The body of the [try] statement.  [not args.amount] holds of [None]
    and, by the truth value of integers, of 0. *)
Definition lnd_client_try (w : World) (client : LNDClient) (args : cli_args)
  : M unit :=
  match args_command args with
  | Info =>
      info <- get_info w client ;;
      print_json info
  | Invoice =>
      match args_amount args with
      | None => amount_missing
      | Some amount =>
          if negb (truthy (JInt amount)) then amount_missing
          else
            invoice <- add_invoice w client amount (args_memo args) ;;
            payment_request <- get_method invoice "payment_request" JNull ;;
            if truthy payment_request then
              qr_code <- generate_qr_base64 payment_request ;;
              invoice <- setitem invoice "qr_code_base64" (JStr qr_code) ;;
              print_json invoice
            else
              print_json
                (JObj [("error",
                        JStr "Failed to get payment request from LND response");
                       ("response", invoice)]) ;;
              sys_exit 1
      end
  end.

(** The [if __name__ == "__main__":] block, after [parse_args]. *)
Definition lnd_client_main (w : World) (args : cli_args) : M unit :=
  let client := LNDClient_init w in
  try_except (lnd_client_try w client args) is_Exception
    (fun e =>
       print_json (JObj [("error", JStr (exn_msg e))]) ;;
       sys_exit 1).

End JsonProgram.

(** ** The interactive program [create_invoice.py] *)

(** The namespace [argparse] builds: both options are [None] when
    absent. *)
Record invoice_args : Type := mkInvoiceArgs {
  arg_amount : option Z;
  arg_memo : option string
}.

(** The line feed of ["\n"]. *)
Definition nl : string := String (ascii_of_nat 10) "".

Definition make_sure : string :=
  "Make sure your LND node is running and lnd_client.py determines the correct paths.".

Definition closing_line : string := "=======================".

Section InteractiveProgram.

(** [repr(v)], which is also [str(v)] when [v] is no [str]. *)
Variable py_repr : json -> string.

(** [int(val)] on a [str]; [None] where it raises [ValueError]. *)
Variable py_int : string -> option Z.

(** What an f-string puts for [{v}]. *)
Definition py_str (v : json) : string :=
  match v with
  | JStr s => s
  | JInt z => str_of_int z
  | _ => py_repr v
  end.

Definition int_of_str (val : string) : M Z :=
  match py_int val with
  | Some z => ret z
  | None =>
      raise (mkExn ValueError
               ("invalid literal for int() with base 10: "
                  ++ py_repr (JStr val)))
  end.

(** The block [if args.amount is None:].  The result is the amount to
    go on with, or [None] when [main] returns from inside the block. *)
Definition ask_amount (args : invoice_args) : M (option Z) :=
  match arg_amount args with
  | Some amount => ret (Some amount)
  | None =>
      try_except
        (val <- input "Enter amount (sats): " ;;
         if negb (truthy (JStr val)) then
           print "Amount is required." ;;
           ret None
         else
           amount <- int_of_str val ;;
           ret (Some amount))
        is_ValueError
        (fun _ =>
           print "Invalid amount." ;;
           ret None)
  end.

(** The block [if args.memo is None:]. *)
Definition ask_memo (args : invoice_args) : M string :=
  match arg_memo args with
  | Some memo => ret memo
  | None => input "Enter memo (optional): "
  end.

(** The body of the [try] statement of [main]. *)
Definition create_invoice_try (w : World) (amount : Z) (memo : string)
  : M unit :=
  let lnd := LNDClient_init w in
  info <- get_info w lnd ;;
  alias <- get_method info "alias" (JStr "unknown") ;;
  print ("Connected to LND node: " ++ py_str alias) ;;
  print ("Creating invoice for " ++ str_of_int amount ++ " sats...") ;;
  invoice <- add_invoice w lnd amount memo ;;
  print (nl ++ "=== INVOICE CREATED ===") ;;
  payment_request <- getitem invoice "payment_request" ;;
  print ("Payment Request: " ++ py_str payment_request) ;;
  r_hash_b64 <- getitem invoice "r_hash" ;;
  r_hash_bytes <- lift (b64decode_value r_hash_b64) ;;
  let r_hash_hex := hex r_hash_bytes in
  print ("R Hash (hex):    " ++ r_hash_hex) ;;
  add_index <- get_method invoice "add_index" (JStr "N/A") ;;
  print ("Add Index:       " ++ py_str add_index) ;;
  print closing_line.

(** [main] of [create_invoice.py], after [parse_args]. *)
Definition main (w : World) (args : invoice_args) : M unit :=
  asked <- ask_amount args ;;
  match asked with
  | None => ret tt
  | Some amount =>
      memo <- ask_memo args ;;
      try_except (create_invoice_try w amount memo) is_Exception
        (fun e =>
           print (nl ++ "Error: " ++ exn_msg e) ;;
           print make_sure)
  end.

End InteractiveProgram.

(** ** What a run of the interactive program comes to *)

(** The world raises nothing but exceptions derived from [Exception]. *)
Definition world_raises_Exception (w : World) : Prop :=
  (forall path e, read_file w path = inl e -> is_Exception e = true) /\
  (forall history rq e,
      http w history rq = Raises e -> is_Exception e = true) /\
  (forall history rq r e,
      http w history rq = Responds r -> json_body r = inl e ->
      is_Exception e = true).

(** Whatever the computation raises derives from [Exception]. *)
Definition raises_only {A} (m : M A) : Prop :=
  forall s e s', m s = (inl e, s') -> is_Exception e = true.








(** ** Worlds to run the programs in *)

Definition no_environ : string -> option string := fun _ => None.

Definition macaroon_sample : list byte := [x02; x01; x03; x6c; x6e; x64].

(** Files: the macaroon is there, and the certificate too. *)
Definition files_present (path : string) : exn + list byte :=
  inr macaroon_sample.

Definition ends_with (suffix s : string) : bool :=
  let n := String.length s in
  let k := String.length suffix in
  (k <=? n)%nat && String.eqb (String.substring (n - k) k s) suffix.

Definition ok_response (v : json) : Response :=
  mkResponse 200 "OK" "" (inr v).

Definition testnode_info : json :=
  JObj [("alias", JStr "testnode"); ("version", JStr "0.17")].

Definition testnode_invoice : json :=
  JObj [("payment_request", JStr "lnbc1..."); ("r_hash", JStr "AAECAw==")].

(** The mocked node of the end-to-end scenario. *)
Definition mock_node (_ : list Request) (rq : Request) : http_outcome :=
  if ends_with "/v1/getinfo" (req_url rq) then Responds (ok_response testnode_info)
  else if ends_with "/v1/invoices" (req_url rq) then
    Responds (ok_response testnode_invoice)
  else Responds (mkResponse 404 "Not Found" "" (inr JNull)).

Definition mock_world : World :=
  mkWorld no_environ "/srv/backend/py" files_present mock_node.

(** The node cannot be reached: the connection is refused. *)
Definition connection_refused : exn :=
  mkExn ConnectionError "HTTPSConnectionPool(host='127.0.0.1', port=8083): Max retries exceeded".

Definition refusing_world : World :=
  mkWorld no_environ "/srv/backend/py" files_present
    (fun _ _ => Raises connection_refused).

(** The node answers every request with [404 Not Found]. *)
Definition not_found_response : Response :=
  mkResponse 404 "Not Found" "{message: Not Found}"
    (inl (mkExn JSONDecodeError "Expecting property name enclosed in double quotes")).

Definition not_found_world : World :=
  mkWorld no_environ "/srv/backend/py" files_present
    (fun _ _ => Responds not_found_response).

(** The node answers [300 Multiple Choices] with a JSON body. *)
Definition multiple_choices : Response :=
  mkResponse 300 "Multiple Choices" "{}" (inr (JObj [])).

Definition multiple_choices_world : World :=
  mkWorld no_environ "/srv/backend/py" files_present
    (fun _ _ => Responds multiple_choices).



(** No credential file at all. *)
Definition no_such_file : exn :=
  mkExn FileNotFoundError "[Errno 2] No such file or directory".

Definition no_files_world : World :=
  mkWorld no_environ "/srv/backend/py" (fun _ => inl no_such_file) mock_node.




Definition sample_client : LNDClient := LNDClient_init mock_world.

(** The node answers the requests for an endpoint with a success status
    and the JSON document [v]. *)
Definition node_returns (w : World) (endpoint : string) (v : json) : Prop :=
  forall (history : list Request) (rq : Request),
    req_url rq = api_endpoint (LNDClient_init w) ++ endpoint ->
    exists r,
      http w history rq = Responds r /\
      200 <= status_code r < 300 /\
      json_body r = inr v.

(** The request [_request] builds. *)
Definition request_of (self : LNDClient) (method endpoint : string)
    (data : option json) (macaroon : list byte) : Request :=
  mkRequest method (api_endpoint self ++ endpoint) data
    [("Grpc-Metadata-macaroon", hex macaroon)] (cert_path self).

(** ** The connection test [test_rest.py] *)

Section TestRest.

(** [repr(v)], as for the interactive program. *)
Variable py_repr : json -> string.



End TestRest.

(** The value [d.get(key, default)] gives on the items of a [dict]. *)
Definition dict_get (key : string) (default : json) (kv : list (string * json))
  : json :=
  match dict_lookup key kv with
  | Some v => v
  | None => default
  end.

(** The image libraries raise nothing but exceptions derived from
    [Exception]. *)
Definition renderer_raises_Exception (qr_png : json -> exn + list byte) : Prop :=
  forall data e, qr_png data = inl e -> is_Exception e = true.

(** Every character is a lower case hexadecimal digit. *)
Fixpoint all_hex_digits (s : string) : bool :=
  match s with
  | EmptyString => true
  | String c rest =>
      let n := N_of_ascii c in
      (((48 <=? n) && (n <=? 57)) || ((97 <=? n) && (n <=? 102)))%N
        && all_hex_digits rest
  end.

(** A node whose info document lacks the alias, and whose invoices lack
    the payment request. *)
Definition bare_node (_ : list Request) (rq : Request) : http_outcome :=
  if ends_with "/v1/getinfo" (req_url rq) then
    Responds (ok_response (JObj [("version", JStr "0.17")]))
  else Responds (ok_response (JObj [("r_hash", JStr "AAECAw==")])).

Definition bare_world : World :=
  mkWorld no_environ "/srv/backend/py" files_present bare_node.

(** A node whose invoice carries a hash that is no base 64 text. *)
Definition bad_hash_invoice : json :=
  JObj [("payment_request", JStr "lnbc1..."); ("r_hash", JStr "AAE")].

Definition bad_hash_node (_ : list Request) (rq : Request) : http_outcome :=
  if ends_with "/v1/getinfo" (req_url rq) then Responds (ok_response testnode_info)
  else Responds (ok_response bad_hash_invoice).

Definition bad_hash_world : World :=
  mkWorld no_environ "/srv/backend/py" files_present bad_hash_node.

(** The node answers with a body that is no JSON. *)
Definition html_response : Response :=
  mkResponse 200 "OK" "<html>gateway</html>"
    (inl (mkExn JSONDecodeError "Expecting value: line 1 column 1 (char 0)")).

Definition html_world : World :=
  mkWorld no_environ "/srv/backend/py" files_present
    (fun _ _ => Responds html_response).

(** A renderer for the examples: a picture of three bytes. *)
Definition sample_png (_ : json) : exn + list byte := inr [x89; x50; x4e].

(** * Properties *)

(** ** Strings and statuses *)

Lemma append_nonempty (a : string) (c : ascii) (b d : string) :
  String.eqb (a ++ (String c b ++ d)) EmptyString = false.
Proof. now destruct a. Qed.

#[local] Arguments String.append : simpl never.

Lemma http_error_msg_set (url : string) (r : Response) :
  400 <= status_code r < 600 ->
  truthy (JStr (http_error_msg url r)) = true.
Proof.
  intros Hstatus. unfold http_error_msg, truthy.
  destruct ((400 <=? status_code r) && (status_code r <? 500)) eqn:Hclient.
  - now rewrite append_nonempty.
  - destruct ((500 <=? status_code r) && (status_code r <? 600)) eqn:Hserver.
    + now rewrite append_nonempty.
    + apply andb_false_iff in Hclient, Hserver.
      rewrite Z.leb_gt, Z.ltb_ge in Hclient, Hserver. lia.
Qed.

Lemma http_error_msg_unset (url : string) (r : Response) :
  ~ 400 <= status_code r < 600 ->
  truthy (JStr (http_error_msg url r)) = false.
Proof.
  intros Hstatus. unfold http_error_msg.
  destruct ((400 <=? status_code r) && (status_code r <? 500)) eqn:Hclient.
  - apply andb_true_iff in Hclient. rewrite Z.leb_le, Z.ltb_lt in Hclient. lia.
  - destruct ((500 <=? status_code r) && (status_code r <? 600)) eqn:Hserver.
    + apply andb_true_iff in Hserver. rewrite Z.leb_le, Z.ltb_lt in Hserver. lia.
    + reflexivity.
Qed.

(** ** Base 64: decoding and encoding are inverse on canonical text *)

Section Below.

Variable k : nat.

Lemma below_true (P : N -> bool) :
  below k P = true -> forall n, (n < N.of_nat k)%N -> P n = true.
Proof.
  unfold below. intros H n Hn.
  rewrite forallb_forall in H. apply H.
  apply in_map_iff. exists (N.to_nat n).
  split; [apply N2Nat.id | apply in_seq; lia].
Qed.

Lemma below2_true (P : N -> N -> bool) :
  below k (fun a => below k (P a)) = true ->
  forall a b, (a < N.of_nat k)%N -> (b < N.of_nat k)%N -> P a b = true.
Proof.
  intros H a b Ha Hb.
  apply (below_true (P a)); [| exact Hb].
  now apply (below_true (fun a => below k (P a))).
Qed.

Lemma below3_true (P : N -> N -> N -> bool) :
  below k (fun a => below k (fun b => below k (P a b))) = true ->
  forall a b c,
    (a < N.of_nat k)%N -> (b < N.of_nat k)%N -> (c < N.of_nat k)%N ->
    P a b c = true.
Proof.
  intros H a b c Ha Hb Hc.
  apply (below_true (P a b)); [| exact Hc].
  now apply (below2_true (fun a b => below k (P a b))).
Qed.

End Below.

Lemma to_N_byte_of_N (n : N) : Byte.to_N (byte_of_N n) = N.land n 255.
Proof.
  unfold byte_of_N.
  destruct (Byte.of_N (N.land n 255)) as [b |] eqn:Hb.
  - now apply Byte.to_of_N.
  - apply Byte.of_N_None_iff in Hb.
    change 255%N with (N.ones 8) in Hb at 2.
    rewrite N.land_ones in Hb.
    pose proof (N.mod_upper_bound n (2 ^ 8)) as Hlt.
    change (2 ^ 8)%N with 256%N in *. lia.
Qed.

Lemma byte_of_to_N (b : byte) : byte_of_N (Byte.to_N b) = b.
Proof. now destruct b. Qed.

Lemma to_N_lt_256 (b : byte) : (Byte.to_N b < 256)%N.
Proof. pose proof (Byte.to_N_bounded b). lia. Qed.

Section Sextets.

Variables n0 n1 n2 n3 : N.
Hypothesis H0 : (n0 < 64)%N.
Hypothesis H1 : (n1 < 64)%N.
Hypothesis H2 : (n2 < 64)%N.
Hypothesis H3 : (n3 < 64)%N.

Lemma sextet0_octet : sextet0 (octet0 n0 n1) = n0.
Proof.
  apply N.eqb_eq.
  apply (below2_true 64 (fun a b => sextet0 (octet0 a b) =? a)%N);
    [vm_compute; reflexivity | assumption | assumption].
Qed.

Lemma sextet1_octet : sextet1 (octet0 n0 n1) (octet1 n1 n2) = n1.
Proof.
  apply N.eqb_eq.
  apply (below3_true 64
    (fun a b c => sextet1 (octet0 a b) (octet1 b c) =? b)%N);
    [vm_compute; reflexivity | assumption..].
Qed.

Lemma sextet2_octet : sextet2 (octet1 n1 n2) (octet2 n2 n3) = n2.
Proof.
  apply N.eqb_eq.
  apply (below3_true 64
    (fun a b c => sextet2 (octet1 a b) (octet2 b c) =? b)%N);
    [vm_compute; reflexivity | assumption..].
Qed.

Lemma sextet3_octet : sextet3 (octet2 n2 n3) = n3.
Proof.
  apply N.eqb_eq.
  apply (below2_true 64 (fun a b => sextet3 (octet2 a b) =? b)%N);
    [vm_compute; reflexivity | assumption..].
Qed.

(** With one byte in the last group, four bits of the second character
    encode nothing; with two bytes, two bits of the third. *)
Lemma sextet1_octet_padded :
  N.land n1 15 = 0%N -> sextet1 (octet0 n0 n1) 0 = n1.
Proof.
  intros Hpad.
  assert (Hb : (implb (N.land n1 15 =? 0)
                  (sextet1 (octet0 n0 n1) 0 =? n1))%N = true)
    by (apply (below2_true 64
          (fun a b => implb (N.land b 15 =? 0)
                        (sextet1 (octet0 a b) 0 =? b))%N);
        [vm_compute; reflexivity | assumption..]).
  rewrite Hpad in Hb. now apply N.eqb_eq.
Qed.

Lemma sextet2_octet_padded :
  N.land n2 3 = 0%N -> sextet2 (octet1 n1 n2) 0 = n2.
Proof.
  intros Hpad.
  assert (Hb : (implb (N.land n2 3 =? 0)
                  (sextet2 (octet1 n1 n2) 0 =? n2))%N = true)
    by (apply (below2_true 64
          (fun a b => implb (N.land b 3 =? 0)
                        (sextet2 (octet1 a b) 0 =? b))%N);
        [vm_compute; reflexivity | assumption..]).
  rewrite Hpad in Hb. now apply N.eqb_eq.
Qed.

End Sextets.

(** The alphabet. *)
Lemma a2b_spec (c : ascii) (n : N) :
  a2b c = Some n ->
  (n < 64)%N /\ b2a n = c /\ Ascii.eqb c "=" = false
  /\ (N_of_ascii c <? 128)%N = true.
Proof.
  destruct c as [[|] [|] [|] [|] [|] [|] [|] [|]];
    vm_compute; intros H; try discriminate H;
    injection H as <-; repeat split.
Qed.

Lemma a2b_b2a (n : N) : (n < 64)%N -> a2b (b2a n) = Some n.
Proof.
  intros Hn.
  assert (Hb : match a2b (b2a n) with
               | Some m => (m =? n)%N
               | None => false
               end = true)
    by (apply (below_true 64
          (fun n => match a2b (b2a n) with
                    | Some m => (m =? n)%N
                    | None => false
                    end));
        [vm_compute; reflexivity | assumption]).
  destruct (a2b (b2a n)) as [m |]; [| discriminate].
  apply N.eqb_eq in Hb. now subst.
Qed.

(** One step of the decoder on a character of the alphabet. *)
Lemma a2b_base64_data (c : ascii) (n : N) (rest : string)
    (quad_pos : nat) (leftchar : N) (pads ndata : nat) :
  a2b c = Some n ->
  a2b_base64 (String c rest) quad_pos leftchar pads ndata
  = match quad_pos with
    | 0%nat => a2b_base64 rest 1 n 0 (S ndata)
    | 1%nat =>
        emit (byte_of_N (N.lor (N.shiftl leftchar 2) (N.shiftr n 4)))
          (a2b_base64 rest 2 (N.land n 15) 0 (S ndata))
    | 2%nat =>
        emit (byte_of_N (N.lor (N.shiftl leftchar 4) (N.shiftr n 2)))
          (a2b_base64 rest 3 (N.land n 3) 0 (S ndata))
    | _ =>
        emit (byte_of_N (N.lor (N.shiftl leftchar 6) n))
          (a2b_base64 rest 0 0 0 (S ndata))
    end.
Proof.
  intros Hc. destruct (a2b_spec _ _ Hc) as (_ & _ & Hpad & _).
  cbn [a2b_base64]. now rewrite Hpad, Hc.
Qed.

(** The encoder reads back the bytes the decoder stored. *)
Lemma to_N_octet0 (n0 n1 : N) :
  Byte.to_N (byte_of_N (N.lor (N.shiftl n0 2) (N.shiftr n1 4))) = octet0 n0 n1.
Proof. apply to_N_byte_of_N. Qed.

Lemma to_N_octet1 (n1 n2 : N) :
  Byte.to_N (byte_of_N (N.lor (N.shiftl (N.land n1 15) 4) (N.shiftr n2 2)))
  = octet1 n1 n2.
Proof. apply to_N_byte_of_N. Qed.

Lemma to_N_octet2 (n2 n3 : N) :
  Byte.to_N (byte_of_N (N.lor (N.shiftl (N.land n2 3) 6) n3)) = octet2 n2 n3.
Proof. apply to_N_byte_of_N. Qed.

(** Decoding canonical text and encoding the bytes again gives the text
    back, from any state of the decoder that stands between two groups. *)
Lemma a2b_base64_canonical (fuel : nat) :
  forall (s : string) (leftchar : N) (pads ndata : nat),
    (String.length s <= fuel)%nat ->
    canonical_b64 s = true ->
    all_ascii s = true /\
    exists bs,
      a2b_base64 s 0 leftchar pads ndata = inr bs /\ b64encode bs = s.
Proof.
  induction fuel as [| fuel IH]; intros s leftchar pads ndata Hlen Hcan.
  - destruct s; [| cbn in Hlen; lia].
    split; [reflexivity |]. now exists [].
  - destruct s as [| c0 [| c1 [| c2 [| c3 rest]]]]; try discriminate Hcan.
    + split; [reflexivity |]. now exists [].
    + cbn [canonical_b64] in Hcan.
      destruct (a2b c0) as [n0 |] eqn:Hc0; [| discriminate Hcan].
      destruct (a2b c1) as [n1 |] eqn:Hc1; [| discriminate Hcan].
      destruct (a2b_spec _ _ Hc0) as (Hn0 & Hb0 & _ & Ha0).
      destruct (a2b_spec _ _ Hc1) as (Hn1 & Hb1 & _ & Ha1).
      rewrite (a2b_base64_data _ _ _ _ _ _ _ Hc0).
      rewrite (a2b_base64_data _ _ _ _ _ _ _ Hc1).
      cbn [all_ascii]. rewrite Ha0, Ha1. cbn [andb].
      destruct (a2b c2) as [n2 |] eqn:Hc2.
      * destruct (a2b_spec _ _ Hc2) as (Hn2 & Hb2 & _ & Ha2).
        rewrite (a2b_base64_data _ _ _ _ _ _ _ Hc2).
        rewrite Ha2. cbn [andb].
        destruct (a2b c3) as [n3 |] eqn:Hc3.
        -- destruct (a2b_spec _ _ Hc3) as (Hn3 & Hb3 & _ & Ha3).
           rewrite (a2b_base64_data _ _ _ _ _ _ _ Hc3).
           rewrite Ha3. cbn [andb].
           destruct (IH rest 0%N 0%nat (S (S (S (S ndata)))))
             as (Hascii & bs & Hdec & Henc);
             [cbn in Hlen; lia | exact Hcan |].
           split; [exact Hascii |].
           rewrite Hdec. cbn [emit]. eexists; split; [reflexivity |].
           cbn [b64encode].
           rewrite to_N_octet0, to_N_octet1, to_N_octet2.
           rewrite sextet0_octet, sextet1_octet, sextet2_octet, sextet3_octet
             by assumption.
           now rewrite Hb0, Hb1, Hb2, Hb3, Henc.
        -- apply andb_true_iff in Hcan as [Hcan Hrest].
           apply andb_true_iff in Hcan as [Hpad Hzero].
           apply Ascii.eqb_eq in Hpad. apply String.eqb_eq in Hrest.
           apply N.eqb_eq in Hzero. subst c3 rest.
           split; [reflexivity |].
           cbn [a2b_base64 Ascii.eqb Bool.eqb Nat.leb Nat.add emit].
           eexists; split; [reflexivity |].
           cbn [b64encode].
           rewrite to_N_octet0, to_N_octet1.
           rewrite sextet0_octet, (sextet1_octet n0 n1 n2),
             sextet2_octet_padded by assumption.
           now rewrite Hb0, Hb1, Hb2.
      * apply andb_true_iff in Hcan as [Hcan Hrest].
        apply andb_true_iff in Hcan as [Hpad Hzero].
        apply andb_true_iff in Hpad as [Hpad2 Hpad3].
        apply Ascii.eqb_eq in Hpad2, Hpad3. apply String.eqb_eq in Hrest.
        apply N.eqb_eq in Hzero. subst c2 c3 rest.
        split; [reflexivity |].
        cbn [a2b_base64 Ascii.eqb Bool.eqb Nat.leb Nat.add emit].
        eexists; split; [reflexivity |].
        cbn [b64encode].
        rewrite to_N_octet0.
        rewrite sextet0_octet, sextet1_octet_padded by assumption.
        now rewrite Hb0, Hb1.
Qed.

(** ** Base 64: every encoding is canonical and decodes to its bytes *)

Section Octets.

Variables x y z : N.
Hypothesis Hx : (x < 256)%N.
Hypothesis Hy : (y < 256)%N.
Hypothesis Hz : (z < 256)%N.

Lemma sextet0_lt : (sextet0 x < 64)%N.
Proof.
  apply N.ltb_lt.
  apply (below_true 256 (fun a => sextet0 a <? 64)%N);
    [vm_compute; reflexivity | assumption].
Qed.

Lemma sextet1_lt : (sextet1 x y < 64)%N.
Proof.
  apply N.ltb_lt.
  apply (below2_true 256 (fun a b => sextet1 a b <? 64)%N);
    [vm_compute; reflexivity | assumption..].
Qed.

Lemma sextet2_lt : (sextet2 y z < 64)%N.
Proof.
  apply N.ltb_lt.
  apply (below2_true 256 (fun a b => sextet2 a b <? 64)%N);
    [vm_compute; reflexivity | assumption..].
Qed.

Lemma sextet3_lt : (sextet3 z < 64)%N.
Proof.
  apply N.ltb_lt.
  apply (below_true 256 (fun a => sextet3 a <? 64)%N);
    [vm_compute; reflexivity | assumption].
Qed.

Lemma octet0_sextet : octet0 (sextet0 x) (sextet1 x y) = x.
Proof.
  apply N.eqb_eq.
  apply (below2_true 256
    (fun a b => octet0 (sextet0 a) (sextet1 a b) =? a)%N);
    [vm_compute; reflexivity | assumption..].
Qed.

Lemma sextet1_low : N.land (sextet1 x y) 15 = N.shiftr y 4.
Proof.
  apply N.eqb_eq.
  apply (below2_true 256
    (fun a b => N.land (sextet1 a b) 15 =? N.shiftr b 4)%N);
    [vm_compute; reflexivity | assumption..].
Qed.

Lemma sextet2_high : N.shiftr (sextet2 y z) 2 = N.land y 15.
Proof.
  apply N.eqb_eq.
  apply (below2_true 256
    (fun a b => N.shiftr (sextet2 a b) 2 =? N.land a 15)%N);
    [vm_compute; reflexivity | assumption..].
Qed.

Lemma nibbles : N.land (N.lor (N.shiftl (N.shiftr y 4) 4) (N.land y 15)) 255 = y.
Proof.
  apply N.eqb_eq.
  apply (below_true 256
    (fun a => N.land (N.lor (N.shiftl (N.shiftr a 4) 4) (N.land a 15)) 255
              =? a)%N);
    [vm_compute; reflexivity | assumption].
Qed.

Lemma octet1_sextet : octet1 (sextet1 x y) (sextet2 y z) = y.
Proof. unfold octet1. now rewrite sextet1_low, sextet2_high, nibbles. Qed.

Lemma sextet2_low : N.land (sextet2 y z) 3 = N.shiftr z 6.
Proof.
  apply N.eqb_eq.
  apply (below2_true 256
    (fun a b => N.land (sextet2 a b) 3 =? N.shiftr b 6)%N);
    [vm_compute; reflexivity | assumption..].
Qed.

Lemma top_and_sextet3 :
  N.land (N.lor (N.shiftl (N.shiftr z 6) 6) (sextet3 z)) 255 = z.
Proof.
  apply N.eqb_eq.
  apply (below_true 256
    (fun a => N.land (N.lor (N.shiftl (N.shiftr a 6) 6) (sextet3 a)) 255
              =? a)%N);
    [vm_compute; reflexivity | assumption].
Qed.

Lemma octet2_sextet : octet2 (sextet2 y z) (sextet3 z) = z.
Proof. unfold octet2. now rewrite sextet2_low, top_and_sextet3. Qed.

Lemma sextet1_pad_bits : N.land (sextet1 x 0) 15 = 0%N.
Proof.
  apply N.eqb_eq.
  apply (below_true 256 (fun a => N.land (sextet1 a 0) 15 =? 0)%N);
    [vm_compute; reflexivity | assumption].
Qed.

Lemma sextet2_pad_bits : N.land (sextet2 y 0) 3 = 0%N.
Proof.
  apply N.eqb_eq.
  apply (below_true 256 (fun a => N.land (sextet2 a 0) 3 =? 0)%N);
    [vm_compute; reflexivity | assumption].
Qed.

End Octets.

Lemma byte_of_octet (n : N) : byte_of_N (N.land n 255) = byte_of_N n.
Proof.
  unfold byte_of_N.
  replace (N.land (N.land n 255) 255) with (N.land n 255); [reflexivity |].
  now rewrite <- N.land_assoc.
Qed.

Lemma b64encode_decodes (fuel : nat) :
  forall (bs : list byte) (leftchar : N) (pads ndata : nat),
    (List.length bs <= fuel)%nat ->
    canonical_b64 (b64encode bs) = true /\
    all_ascii (b64encode bs) = true /\
    a2b_base64 (b64encode bs) 0 leftchar pads ndata = inr bs.
Proof.
  assert (Hzero : (0 < 256)%N) by lia.
  induction fuel as [| fuel IH]; intros bs leftchar pads ndata Hlen.
  - destruct bs; [| cbn in Hlen; lia]. now repeat split.
  - destruct bs as [| a [| b [| c rest]]].
    + now repeat split.
    + pose proof (to_N_lt_256 a) as Ha.
      pose proof (a2b_b2a _ (sextet0_lt _ Ha)) as H0.
      pose proof (a2b_b2a _ (sextet1_lt _ _ Ha Hzero)) as H1.
      destruct (a2b_spec _ _ H0) as (_ & _ & _ & A0).
      destruct (a2b_spec _ _ H1) as (_ & _ & _ & A1).
      cbn [b64encode].
      repeat split.
      * cbn [canonical_b64]. rewrite H0, H1.
        cbn. now rewrite (sextet1_pad_bits _ Ha).
      * cbn [all_ascii]. now rewrite A0, A1.
      * rewrite (a2b_base64_data _ _ _ _ _ _ _ H0).
        rewrite (a2b_base64_data _ _ _ _ _ _ _ H1).
        cbn [a2b_base64 Ascii.eqb Bool.eqb Nat.leb Nat.add emit].
        rewrite <- byte_of_octet. fold (octet0 (sextet0 (Byte.to_N a))
                                           (sextet1 (Byte.to_N a) 0)).
        now rewrite octet0_sextet, byte_of_to_N.
    + pose proof (to_N_lt_256 a) as Ha. pose proof (to_N_lt_256 b) as Hb.
      pose proof (a2b_b2a _ (sextet0_lt _ Ha)) as H0.
      pose proof (a2b_b2a _ (sextet1_lt _ _ Ha Hb)) as H1.
      pose proof (a2b_b2a _ (sextet2_lt _ _ Hb Hzero)) as H2.
      destruct (a2b_spec _ _ H0) as (_ & _ & _ & A0).
      destruct (a2b_spec _ _ H1) as (_ & _ & _ & A1).
      destruct (a2b_spec _ _ H2) as (_ & _ & _ & A2).
      cbn [b64encode].
      repeat split.
      * cbn [canonical_b64]. rewrite H0, H1, H2.
        cbn. now rewrite (sextet2_pad_bits _ Hb).
      * cbn [all_ascii]. now rewrite A0, A1, A2.
      * rewrite (a2b_base64_data _ _ _ _ _ _ _ H0).
        rewrite (a2b_base64_data _ _ _ _ _ _ _ H1).
        rewrite (a2b_base64_data _ _ _ _ _ _ _ H2).
        cbn [a2b_base64 Ascii.eqb Bool.eqb Nat.leb Nat.add emit].
        rewrite <- (byte_of_octet (N.lor (N.shiftl (sextet0 _) 2) _)).
        rewrite <- (byte_of_octet (N.lor (N.shiftl (N.land _ 15) 4) _)).
        fold (octet0 (sextet0 (Byte.to_N a))
                (sextet1 (Byte.to_N a) (Byte.to_N b))).
        fold (octet1 (sextet1 (Byte.to_N a) (Byte.to_N b))
                (sextet2 (Byte.to_N b) 0)).
        now rewrite octet0_sextet, octet1_sextet, !byte_of_to_N.
    + pose proof (to_N_lt_256 a) as Ha. pose proof (to_N_lt_256 b) as Hb.
      pose proof (to_N_lt_256 c) as Hc.
      pose proof (a2b_b2a _ (sextet0_lt _ Ha)) as H0.
      pose proof (a2b_b2a _ (sextet1_lt _ _ Ha Hb)) as H1.
      pose proof (a2b_b2a _ (sextet2_lt _ _ Hb Hc)) as H2.
      pose proof (a2b_b2a _ (sextet3_lt _ Hc)) as H3.
      destruct (a2b_spec _ _ H0) as (_ & _ & _ & A0).
      destruct (a2b_spec _ _ H1) as (_ & _ & _ & A1).
      destruct (a2b_spec _ _ H2) as (_ & _ & _ & A2).
      destruct (a2b_spec _ _ H3) as (_ & _ & _ & A3).
      destruct (IH rest 0%N 0%nat (S (S (S (S ndata)))))
        as (Hcan & Hascii & Hdec); [cbn in Hlen; lia |].
      cbn [b64encode].
      repeat split.
      * cbn [canonical_b64]. now rewrite H0, H1, H2, H3.
      * cbn [all_ascii]. now rewrite A0, A1, A2, A3.
      * rewrite (a2b_base64_data _ _ _ _ _ _ _ H0).
        rewrite (a2b_base64_data _ _ _ _ _ _ _ H1).
        rewrite (a2b_base64_data _ _ _ _ _ _ _ H2).
        rewrite (a2b_base64_data _ _ _ _ _ _ _ H3).
        rewrite Hdec. cbn [emit].
        rewrite <- (byte_of_octet (N.lor (N.shiftl (sextet0 _) 2) _)).
        rewrite <- (byte_of_octet (N.lor (N.shiftl (N.land _ 15) 4) _)).
        rewrite <- (byte_of_octet (N.lor (N.shiftl (N.land _ 3) 6) _)).
        fold (octet0 (sextet0 (Byte.to_N a))
                (sextet1 (Byte.to_N a) (Byte.to_N b))).
        fold (octet1 (sextet1 (Byte.to_N a) (Byte.to_N b))
                (sextet2 (Byte.to_N b) (Byte.to_N c))).
        fold (octet2 (sextet2 (Byte.to_N b) (Byte.to_N c))
                (sextet3 (Byte.to_N c))).
        now rewrite octet0_sextet, octet1_sextet, octet2_sextet, !byte_of_to_N.
Qed.

(** [b64decode] undoes [b64encode]. *)
Lemma b64decode_b64encode (bs : list byte) :
  b64decode (b64encode bs) = inr bs.
Proof.
  destruct (b64encode_decodes (List.length bs) bs 0%N 0%nat 0%nat (le_n _))
    as (_ & Hascii & Hdec).
  unfold b64decode. now rewrite Hascii.
Qed.

(** The canonical texts are the texts the encoder produces. *)
Lemma canonical_b64_iff (s : string) :
  canonical_b64 s = true <-> exists bs, s = b64encode bs.
Proof.
  split.
  - intros Hcan.
    destruct (a2b_base64_canonical (String.length s) s 0%N 0%nat 0%nat
                (le_n _) Hcan) as (_ & bs & _ & Henc).
    now exists bs.
  - intros (bs & ->).
    now destruct (b64encode_decodes (List.length bs) bs 0%N 0%nat 0%nat
                    (le_n _)) as (Hcan & _).
Qed.

(** ** Hexadecimal text determines the bytes *)

Lemma unhex_hex (bs : list byte) : unhex (hex bs) = bs.
Proof.
  induction bs as [| b bs IH]; [reflexivity |].
  cbn [hex unhex]. rewrite IH. f_equal.
  now destruct b.
Qed.

(** ** Running a computation *)

Lemma bind_eq {A B} (m : M A) (k : A -> M B) (s : State) :
  bind m k s
  = match m s with
    | (inl e, s') => (inl e, s')
    | (inr a, s') => k a s'
    end.
Proof. reflexivity. Qed.


Lemma try_except_eq {A} (body : M A) (catches : exn -> bool)
    (handler : exn -> M A) (s : State) :
  try_except body catches handler s
  = match body s with
    | (inl e, s') => if catches e then handler e s' else (inl e, s')
    | (inr a, s') => (inr a, s')
    end.
Proof. reflexivity. Qed.

(** ** The request wrapper *)

#[local] Arguments _request : simpl never.

Section Request.

Variable w : World.
Variable self : LNDClient.
Variables method endpoint : string.
Variable data : option json.
Variable st : State.

Let rq (macaroon : list byte) := request_of self method endpoint data macaroon.

(** An unreadable macaroon stops [_request] at [get_headers]. *)
Lemma _request_unreadable (e : exn) :
  read_file w (macaroon_path self) = inl e ->
  _request w self method endpoint data st
  = (inl e, mkState (stdin st) (stdout st) (stderr st)
              (opened st ++ [macaroon_path self]) (requests st)).
Proof.
  intros Hread.
  unfold _request, get_headers, bind, open_read.
  now rewrite Hread.
Qed.

(** With the macaroon read, the request goes out, once, whatever
    becomes of it. *)
Lemma _request_sends (macaroon : list byte) :
  read_file w (macaroon_path self) = inr macaroon ->
  requests (snd (_request w self method endpoint data st))
  = (requests st ++ [rq macaroon])%list.
Proof.
  intros Hread.
  unfold _request, get_headers, bind, open_read, try_except,
    requests_request, request_handler, raise_for_status, response_json,
    eprint, raise, ret.
  rewrite Hread; cbn [requests].
  fold (request_of self method endpoint data macaroon).
  destruct (http w (requests st) _) as [e | r]; cbn [requests snd].
  - now destruct (is_RequestException e).
  - destruct (truthy _); cbn [is_RequestException exn_cls requests snd];
      [reflexivity |].
    destruct (json_body r) as [e | v]; cbn [requests snd]; [| reflexivity].
    now destruct (is_RequestException e).
Qed.

(** The library raises a [RequestException] before any response exists:
    the handler runs with [response] unbound. *)
Lemma _request_no_response (macaroon : list byte) (e : exn) :
  read_file w (macaroon_path self) = inr macaroon ->
  http w (requests st) (rq macaroon) = Raises e ->
  is_RequestException e = true ->
  _request w self method endpoint data st
  = (inl (unbound_local "response"),
     mkState (stdin st) (stdout st)
       (stderr st ++ ["Error connecting to LND: " ++ exn_msg e])
       (opened st ++ [macaroon_path self])
       (requests st ++ [rq macaroon])).
Proof.
  intros Hread Hhttp Hcls.
  unfold _request, get_headers, bind, open_read, try_except,
    requests_request, request_handler, eprint, raise, ret.
  rewrite Hread; cbn [requests].
  fold (request_of self method endpoint data macaroon).
  unfold rq in Hhttp; rewrite Hhttp, Hcls.
  reflexivity.
Qed.

(** A response with a status from 400 to 599: [raise_for_status] raises
    an [HTTPError], the handler writes it and the body to the error
    stream and raises it again. *)
Lemma _request_error_status (macaroon : list byte) (r : Response) :
  read_file w (macaroon_path self) = inr macaroon ->
  http w (requests st) (rq macaroon) = Responds r ->
  400 <= status_code r < 600 ->
  let e := mkExn HTTPError (http_error_msg (api_endpoint self ++ endpoint) r) in
  _request w self method endpoint data st
  = (inl e,
     mkState (stdin st) (stdout st)
       (stderr st ++ ["Error connecting to LND: " ++ exn_msg e;
                      "Response: " ++ text r])
       (opened st ++ [macaroon_path self])
       (requests st ++ [rq macaroon])).
Proof.
  intros Hread Hhttp Hstatus e.
  unfold _request, get_headers, bind, open_read, try_except,
    requests_request, request_handler, raise_for_status, eprint, raise, ret.
  rewrite Hread; cbn [requests].
  fold (request_of self method endpoint data macaroon).
  unfold rq in Hhttp; rewrite Hhttp.
  rewrite (http_error_msg_set _ _ Hstatus).
  cbn [is_RequestException exn_cls stdin stdout stderr opened requests].
  subst e; unfold bind; cbn [exn_msg stdin stdout stderr opened requests].
  now rewrite <- app_assoc.
Qed.

(** A response with any other status and a body that decodes: the value
    is returned. *)
Lemma _request_returns (macaroon : list byte) (r : Response) (v : json) :
  read_file w (macaroon_path self) = inr macaroon ->
  http w (requests st) (rq macaroon) = Responds r ->
  ~ 400 <= status_code r < 600 ->
  json_body r = inr v ->
  _request w self method endpoint data st
  = (inr v,
     mkState (stdin st) (stdout st) (stderr st)
       (opened st ++ [macaroon_path self])
       (requests st ++ [rq macaroon])).
Proof.
  intros Hread Hhttp Hstatus Hbody.
  unfold _request, get_headers, bind, open_read, try_except,
    requests_request, raise_for_status, response_json, raise, ret.
  rewrite Hread; cbn [requests].
  fold (request_of self method endpoint data macaroon).
  unfold rq in Hhttp; rewrite Hhttp.
  rewrite (http_error_msg_unset _ _ Hstatus), Hbody.
  reflexivity.
Qed.

End Request.

(** The library raises something that is no [RequestException]: it
    passes the handler by. *)
Lemma _request_library_raises
    (w : World) (self : LNDClient) (method endpoint : string)
    (data : option json) (st : State) (macaroon : list byte) (e : exn) :
  read_file w (macaroon_path self) = inr macaroon ->
  http w (requests st) (request_of self method endpoint data macaroon)
  = Raises e ->
  is_RequestException e = false ->
  _request w self method endpoint data st
  = (inl e,
     mkState (stdin st) (stdout st) (stderr st)
       (opened st ++ [macaroon_path self])
       (requests st ++ [request_of self method endpoint data macaroon])).
Proof.
  intros Hread Hhttp Hcls.
  unfold _request, get_headers.
  rewrite !bind_eq. unfold open_read. rewrite Hread. cbn [ret].
  rewrite bind_eq, try_except_eq. unfold requests_request. cbn [requests].
  fold (request_of self method endpoint data macaroon).
  now rewrite Hhttp, Hcls.
Qed.

(** The body of the response does not decode. *)
Lemma _request_body_raises
    (w : World) (self : LNDClient) (method endpoint : string)
    (data : option json) (st : State) (macaroon : list byte) (r : Response)
    (e : exn) :
  read_file w (macaroon_path self) = inr macaroon ->
  http w (requests st) (request_of self method endpoint data macaroon)
  = Responds r ->
  ~ 400 <= status_code r < 600 ->
  json_body r = inl e ->
  _request w self method endpoint data st
  = (inl e,
     mkState (stdin st) (stdout st)
       (if is_RequestException e
        then stderr st ++ [("Error connecting to LND: " ++ exn_msg e)%string;
                           ("Response: " ++ text r)%string]
        else stderr st)
       (opened st ++ [macaroon_path self])
       (requests st ++ [request_of self method endpoint data macaroon])).
Proof.
  intros Hread Hhttp Hstatus Hbody.
  unfold _request, get_headers.
  rewrite !bind_eq. unfold open_read. rewrite Hread. cbn [ret].
  rewrite bind_eq, try_except_eq. unfold requests_request. cbn [requests].
  fold (request_of self method endpoint data macaroon).
  rewrite Hhttp, try_except_eq, bind_eq. unfold raise_for_status.
  rewrite (http_error_msg_unset _ _ Hstatus). cbn [ret].
  unfold response_json. rewrite Hbody. cbn [raise].
  destruct (is_RequestException e); [| reflexivity].
  unfold request_handler. rewrite !bind_eq. cbn.
  now rewrite <- app_assoc.
Qed.

(** ** Invoice creation *)

(** C1.  For every integer amount, zero and negative ones included, and
    every memo, [add_invoice] issues exactly one request: a POST to the
    path /v1/invoices whose JSON body is the object with the two fields
    value and memo, holding the amount and the memo as they were given.
    The macaroon has to be readable for a request to be built at all; what
    the node answers plays no part. *)
Theorem add_invoice_sends_value_memo
    (w : World) (self : LNDClient) (amount : Z) (memo : string) (st : State)
    (macaroon : list byte) :
  read_file w (macaroon_path self) = inr macaroon ->
  requests (snd (add_invoice w self amount memo st))
  = (requests st
       ++ [mkRequest "POST" (api_endpoint self ++ "/v1/invoices")
             (Some (JObj [("value", JInt amount); ("memo", JStr memo)]))
             [("Grpc-Metadata-macaroon", hex macaroon)] (cert_path self)])%list.
Proof.
  intros Hread. unfold add_invoice.
  now rewrite (_request_sends _ _ _ _ _ _ _ Hread).
Qed.

Lemma add_invoice_sends_value_memo_witness :
  read_file mock_world (macaroon_path sample_client) = inr macaroon_sample /\
  requests (snd (add_invoice mock_world sample_client (-5) "tip" (initial [])))
  = [mkRequest "POST" "https://127.0.0.1:8083/v1/invoices"
       (Some (JObj [("value", JInt (-5)); ("memo", JStr "tip")]))
       [("Grpc-Metadata-macaroon", "0201036c6e64")]
       "/srv/backend/py/../config/tls.cert"].
Proof.
  split; [reflexivity |].
  apply (add_invoice_sends_value_memo mock_world sample_client (-5) "tip"
           (initial []) macaroon_sample).
  reflexivity.
Defined.

(** ** Failures of the request wrapper *)

(** C3.  When the connection to the node is refused, the exception that
    leaves [_request] is not the connection error: the handler reads the
    local [response], which was never bound, and an [UnboundLocalError]
    reaches the caller in its place. *)
Theorem _request_connection_refused :
  is_transport_failure connection_refused = true /\
  _request refusing_world sample_client "GET" "/v1/getinfo" None (initial [])
  = (inl (unbound_local "response"),
     mkState [] []
       ["Error connecting to LND: " ++ exn_msg connection_refused]
       ["/srv/backend/py/../config/admin.macaroon"]
       [request_of sample_client "GET" "/v1/getinfo" None macaroon_sample]) /\
  unbound_local "response" <> connection_refused.
Proof.
  split; [reflexivity |]. split; [reflexivity | discriminate].
Qed.

(** C4, as stated, fails: a response with the status 300 is no 2xx
    response, yet [raise_for_status] lets it pass and [_request] returns
    the decoded body. *)
Lemma _request_returns_on_status_300 :
  ~ 200 <= status_code multiple_choices < 300 /\
  _request multiple_choices_world sample_client "GET" "/v1/getinfo" None
    (initial [])
  = (inr (JObj []),
     mkState [] [] []
       ["/srv/backend/py/../config/admin.macaroon"]
       [request_of sample_client "GET" "/v1/getinfo" None macaroon_sample]).
Proof.
  split; [cbn; lia | reflexivity].
Qed.

(** C4, amended.  For every response with a status from 400 to 599,
    [_request] raises an [HTTPError] to its caller instead of returning a
    value, after writing the error and the text of the response body to
    the error stream.  A response with any other status raises no
    [HTTPError]: when its body decodes as JSON, [_request] returns the
    decoded body and writes nothing to the error stream. *)
Theorem _request_raises_on_error_status
    (w : World) (self : LNDClient) (method endpoint : string)
    (data : option json) (st : State) (macaroon : list byte) (r : Response) :
  read_file w (macaroon_path self) = inr macaroon ->
  http w (requests st) (request_of self method endpoint data macaroon)
  = Responds r ->
  (400 <= status_code r < 600 ->
   exists e,
     exn_cls e = HTTPError /\
     fst (_request w self method endpoint data st) = inl e /\
     stderr (snd (_request w self method endpoint data st))
     = (stderr st ++ [("Error connecting to LND: " ++ exn_msg e)%string;
                      ("Response: " ++ text r)%string])%list) /\
  (~ 400 <= status_code r < 600 ->
   forall v,
     json_body r = inr v ->
     fst (_request w self method endpoint data st) = inr v /\
     stderr (snd (_request w self method endpoint data st)) = stderr st).
Proof.
  intros Hread Hhttp. split.
  - intros Hstatus.
    exists (mkExn HTTPError (http_error_msg (api_endpoint self ++ endpoint) r)).
    rewrite (_request_error_status _ _ _ _ _ _ _ _ Hread Hhttp Hstatus).
    repeat split.
  - intros Hstatus v Hbody.
    now rewrite (_request_returns _ _ _ _ _ _ _ _ _ Hread Hhttp Hstatus Hbody).
Qed.

Lemma _request_raises_on_error_status_witness :
  read_file not_found_world (macaroon_path sample_client) = inr macaroon_sample /\
  http not_found_world []
    (request_of sample_client "POST" "/v1/invoices" None macaroon_sample)
  = Responds not_found_response /\
  400 <= status_code not_found_response < 600 /\
  exists e,
    exn_cls e = HTTPError /\
    fst (_request not_found_world sample_client "POST" "/v1/invoices" None
           (initial [])) = inl e /\
    stderr (snd (_request not_found_world sample_client "POST" "/v1/invoices"
                   None (initial [])))
    = [("Error connecting to LND: " ++ exn_msg e)%string;
       ("Response: " ++ text not_found_response)%string].
Proof.
  assert (Hstatus : 400 <= status_code not_found_response < 600)
    by (cbn; lia).
  split; [reflexivity |]. split; [reflexivity |]. split; [exact Hstatus |].
  destruct (_request_raises_on_error_status not_found_world sample_client
              "POST" "/v1/invoices" None (initial []) macaroon_sample
              not_found_response eq_refl eq_refl) as [Herror _].
  exact (Herror Hstatus).
Defined.

(** ** Credential files *)





(** ** The JSON command line program *)

(** C2.  The subcommand invoice without [--amount]: the program prints one
    JSON object, with the key error, and exits with the status 1, having
    opened no file and sent no request. *)
Theorem invoice_without_amount
    (qr_png : json -> exn + list byte) (w : World) (memo : string) (st : State) :
  let run := lnd_client_main qr_png w (mkCliArgs Invoice None memo) st in
  exit_status (fst run) = 1 /\
  stdout (snd run)
  = (stdout st
       ++ [OutJson (JObj [("error", JStr "Amount is required for invoice")])])%list /\
  requests (snd run) = requests st /\
  opened (snd run) = opened st /\
  stderr (snd run) = stderr st.
Proof.
  repeat split.
Qed.

(** C10.  The subcommand invoice with [--amount 0] does what it does
    without [--amount]: 0 is false, so the program prints the JSON error
    object and exits with the status 1, and no invoice request for the
    value 0 is sent. *)
Theorem invoice_with_amount_zero
    (qr_png : json -> exn + list byte) (w : World) (memo : string) (st : State) :
  let run := lnd_client_main qr_png w (mkCliArgs Invoice (Some 0) memo) st in
  run = lnd_client_main qr_png w (mkCliArgs Invoice None memo) st /\
  exit_status (fst run) = 1 /\
  stdout (snd run)
  = (stdout st
       ++ [OutJson (JObj [("error", JStr "Amount is required for invoice")])])%list /\
  requests (snd run) = requests st.
Proof.
  repeat split.
Qed.

(** ** The hash shown by the interactive program *)

(** C6, as stated, fails: the decoder of Python takes more than the
    text an encoder produces.  In AAF= the last character carries a bit
    that encodes nothing; the text decodes, to the bytes AAE= decodes to,
    and encoding them gives AAE=, another text: the conversion of the
    interactive program shows the same hexadecimal hash for both. *)
Lemma b64_round_trip_fails_off_canonical :
  b64decode_value (JStr "AAF=") = inr [x00; x01] /\
  b64encode [x00; x01] = "AAE="%string /\
  "AAE="%string <> "AAF="%string /\
  b64decode_value (JStr "AAE=") = b64decode_value (JStr "AAF=").
Proof. repeat split. discriminate. Qed.

(** C6, amended.  For every text in canonical base 64 form, which is the
    text an encoder produces for some bytes, the conversion of the
    interactive program decodes it, encoding the decoded bytes gives the
    text back, and the hexadecimal form the program shows loses nothing:
    the bytes, and so the text, can be read back from it. *)
Theorem b64_hash_round_trip (s : string) :
  canonical_b64 s = true ->
  exists bs,
    b64decode_value (JStr s) = inr bs /\
    b64encode bs = s /\
    b64encode (unhex (hex bs)) = s.
Proof.
  intros Hcan.
  destruct (a2b_base64_canonical (String.length s) s 0%N 0%nat 0%nat
              (le_n _) Hcan) as (Hascii & bs & Hdec & Henc).
  exists bs. cbn [b64decode_value]. unfold b64decode.
  rewrite Hascii, unhex_hex.
  now repeat split.
Qed.

Lemma b64_hash_round_trip_witness :
  canonical_b64 "AAECAw==" = true /\
  exists bs,
    b64decode_value (JStr "AAECAw==") = inr bs /\
    b64encode bs = "AAECAw=="%string /\
    b64encode (unhex (hex bs)) = "AAECAw=="%string.
Proof.
  split; [reflexivity |].
  apply (b64_hash_round_trip "AAECAw==").
  reflexivity.
Defined.

(** ** The interactive program *)

(** C7.  With a node that returns the alias testnode for the info query
    and the payment request lnbc1... with the hash AAECAw== for the
    invoice, the program run with the amount 1000 and the memo test
    prints the line that names the node it is connected to and, further
    down, the hash in hexadecimal, 00010203. *)
Theorem interactive_end_to_end
    (py_repr : json -> string) (py_int : string -> option Z)
    (w : World) (st : State) (macaroon : list byte) :
  read_file w (macaroon_path (LNDClient_init w)) = inr macaroon ->
  node_returns w "/v1/getinfo" testnode_info ->
  node_returns w "/v1/invoices" testnode_invoice ->
  let run := main py_repr py_int w (mkInvoiceArgs (Some 1000) (Some "test")) st in
  fst run = inr tt /\
  stdout (snd run)
  = (stdout st
       ++ [OutText "Connected to LND node: testnode";
           OutText "Creating invoice for 1000 sats...";
           OutText (nl ++ "=== INVOICE CREATED ===")%string;
           OutText "Payment Request: lnbc1...";
           OutText "R Hash (hex):    00010203";
           OutText "Add Index:       N/A";
           OutText closing_line])%list.
Proof.
  intros Hread Hinfo Hinvoice run; subst run.
  set (lnd := LNDClient_init w) in *.
  unfold main, ask_amount, ask_memo, create_invoice_try, get_info, add_invoice.
  fold lnd. cbn.
  rewrite try_except_eq, bind_eq.
  destruct (Hinfo (requests st)
              (request_of lnd "GET" "/v1/getinfo" None macaroon) eq_refl)
    as (r1 & Hhttp1 & Hstatus1 & Hbody1).
  rewrite (_request_returns w lnd "GET" "/v1/getinfo" None st macaroon r1 _
             Hread Hhttp1 ltac:(lia) Hbody1).
  cbn. rewrite bind_eq.
  match goal with
  | |- context [_request w lnd "POST" ?e ?d ?s] =>
      destruct (Hinvoice (requests s) (request_of lnd "POST" e d macaroon)
                  eq_refl) as (r2 & Hhttp2 & Hstatus2 & Hbody2);
      rewrite (_request_returns w lnd "POST" e d s macaroon r2 _
                 Hread Hhttp2 ltac:(lia) Hbody2)
  end.
  cbn. split; [reflexivity |].
  now rewrite <- !app_assoc.
Qed.

Lemma mock_node_returns_info : node_returns mock_world "/v1/getinfo" testnode_info.
Proof.
  intros history rq Hurl. exists (ok_response testnode_info).
  cbn in *. unfold mock_node. rewrite Hurl.
  repeat split; cbn; lia.
Qed.

Lemma mock_node_returns_invoice :
  node_returns mock_world "/v1/invoices" testnode_invoice.
Proof.
  intros history rq Hurl. exists (ok_response testnode_invoice).
  cbn in *. unfold mock_node. rewrite Hurl.
  repeat split; cbn; lia.
Qed.

Lemma interactive_end_to_end_witness :
  read_file mock_world (macaroon_path (LNDClient_init mock_world))
  = inr macaroon_sample /\
  node_returns mock_world "/v1/getinfo" testnode_info /\
  node_returns mock_world "/v1/invoices" testnode_invoice /\
  let run := main (fun _ => EmptyString) (fun _ => None) mock_world
               (mkInvoiceArgs (Some 1000) (Some "test")) (initial []) in
  fst run = inr tt /\
  stdout (snd run)
  = [OutText "Connected to LND node: testnode";
     OutText "Creating invoice for 1000 sats...";
     OutText (nl ++ "=== INVOICE CREATED ===")%string;
     OutText "Payment Request: lnbc1...";
     OutText "R Hash (hex):    00010203";
     OutText "Add Index:       N/A";
     OutText closing_line].
Proof.
  split; [reflexivity |].
  split; [exact mock_node_returns_info |].
  split; [exact mock_node_returns_invoice |].
  apply (interactive_end_to_end (fun _ => EmptyString) (fun _ => None)
           mock_world (initial []) macaroon_sample);
    [reflexivity | exact mock_node_returns_info
     | exact mock_node_returns_invoice].
Defined.

(** ** What the interactive program lets escape *)

Section RaisesException.

Lemma raises_only_ret {A} (a : A) : raises_only (ret a).
Proof. intros s e s' H. discriminate H. Qed.

Lemma raises_only_raise {A} (e : exn) :
  is_Exception e = true -> raises_only (@raise A e).
Proof. intros He s e' s' H. now injection H as <- _. Qed.

Lemma raises_only_bind {A B} (m : M A) (k : A -> M B) :
  raises_only m -> (forall a, raises_only (k a)) -> raises_only (bind m k).
Proof.
  intros Hm Hk s e s' H. rewrite bind_eq in H.
  destruct (m s) as [[e0 | a] s0] eqn:Hms.
  - injection H as <- <-. exact (Hm _ _ _ Hms).
  - exact (Hk a _ _ _ H).
Qed.

Lemma raises_only_try_except {A} (body : M A) (catches : exn -> bool)
    (handler : exn -> M A) :
  raises_only body -> (forall e, raises_only (handler e)) ->
  raises_only (try_except body catches handler).
Proof.
  intros Hbody Hhandler s e s' H. rewrite try_except_eq in H.
  destruct (body s) as [[e0 | a] s0] eqn:Hbs; [| discriminate H].
  destruct (catches e0).
  - exact (Hhandler e0 _ _ _ H).
  - injection H as <- <-. exact (Hbody _ _ _ Hbs).
Qed.


Lemma raises_only_eprint (line : string) : raises_only (eprint line).
Proof. intros s e s' H. discriminate H. Qed.




Lemma emit_raises (b : byte) (r : exn + list byte) (e : exn) :
  emit b r = inl e -> r = inl e.
Proof. destruct r; [trivial | discriminate]. Qed.

Lemma a2b_base64_raises (s : string) :
  forall (quad_pos : nat) (leftchar : N) (pads ndata : nat) (e : exn),
    a2b_base64 s quad_pos leftchar pads ndata = inl e ->
    exn_cls e = BinasciiError.
Proof.
  induction s as [| c rest IH]; intros quad_pos leftchar pads ndata e H.
  - cbn in H. destruct quad_pos as [| [| quad_pos]];
      [discriminate H | now injection H as <- ..].
  - cbn [a2b_base64] in H.
    destruct (Ascii.eqb c "=").
    + destruct (2 <=? quad_pos)%nat; [| now apply IH in H].
      destruct (4 <=? quad_pos + S pads)%nat; [discriminate H |].
      now apply IH in H.
    + destruct (a2b c) as [n |]; [| now apply IH in H].
      destruct quad_pos as [| [| [| quad_pos]]];
        try apply emit_raises in H; now apply IH in H.
Qed.

Lemma b64decode_value_raises (v : json) (e : exn) :
  b64decode_value v = inl e -> is_Exception e = true.
Proof.
  intros H. destruct v; try (now injection H as <-).
  cbn in H. unfold b64decode in H.
  destruct (all_ascii s); [| now injection H as <-].
  apply a2b_base64_raises in H. unfold is_Exception. now rewrite H.
Qed.

Variable w : World.
Hypothesis Hworld : world_raises_Exception w.

Lemma raises_only_request_handler {A} (response : option Response) (e : exn) :
  is_Exception e = true -> raises_only (@request_handler A response e).
Proof.
  intros He. unfold request_handler.
  apply raises_only_bind; [apply raises_only_eprint | intros _].
  destruct response.
  - apply raises_only_bind; [apply raises_only_eprint | intros _].
    now apply raises_only_raise.
  - now apply raises_only_raise.
Qed.

Lemma is_RequestException_Exception (e : exn) :
  is_RequestException e = true -> is_Exception e = true.
Proof. unfold is_RequestException, is_Exception. now destruct (exn_cls e). Qed.

Lemma raises_only__request (self : LNDClient) (method endpoint : string)
    (data : option json) :
  raises_only (_request w self method endpoint data).
Proof.
  destruct Hworld as (Hfile & Hhttp & Hjson).
  intros s e s' H.
  unfold _request, get_headers in H.
  rewrite !bind_eq in H. unfold open_read in H.
  destruct (read_file w (macaroon_path self)) as [e0 | macaroon] eqn:Hread.
  { injection H as <- _. exact (Hfile _ _ Hread). }
  cbn [ret] in H.
  rewrite bind_eq, try_except_eq in H. unfold requests_request in H.
  cbn [requests] in H.
  destruct (http w (requests s) _) as [e0 | r] eqn:Hreq.
  { destruct (is_RequestException e0) eqn:Hcls.
    - cbn in H. now injection H as <- _.
    - injection H as <- _. exact (Hhttp _ _ _ Hreq). }
  rewrite try_except_eq, bind_eq in H. unfold raise_for_status in H.
  destruct (truthy (JStr (http_error_msg _ r))).
  { cbn in H. now injection H as <- _. }
  cbn [ret] in H. unfold response_json in H.
  destruct (json_body r) as [e0 | v] eqn:Hbody; [| discriminate H].
  cbn [raise] in H.
  destruct (is_RequestException e0) eqn:Hcls.
  - cbn in H. injection H as <- _. exact (Hjson _ _ _ _ Hreq Hbody).
  - injection H as <- _. exact (Hjson _ _ _ _ Hreq Hbody).
Qed.

Variable py_repr : json -> string.




End RaisesException.



Lemma refusing_world_raises_Exception : world_raises_Exception refusing_world.
Proof.
  repeat split.
  - intros path e H. discriminate H.
  - intros history rq e H. now injection H as <-.
  - intros history rq r e H. discriminate H.
Qed.


(** What that run prints: the flow fails at the info query, with the
    unbound local of [_request], and [main] reports it. *)
Example interactive_failure_output :
  main (fun _ => EmptyString) (fun _ => None) refusing_world
    (mkInvoiceArgs (Some 1000) None) (initial ["tip"])
  = (inr tt,
     mkState []
       [OutPrompt "Enter memo (optional): ";
        OutText (nl ++ "Error: " ++ exn_msg (unbound_local "response"));
        OutText make_sure]
       ["Error connecting to LND: " ++ exn_msg connection_refused]
       ["/srv/backend/py/../config/admin.macaroon"]
       [request_of sample_client "GET" "/v1/getinfo" None macaroon_sample]).
Proof. reflexivity. Qed.

(** ** The QR code of the JSON program *)

(** Whatever picture the image libraries make of the payment request, the
    text [generate_qr_base64] returns decodes to the bytes of that
    picture. *)
Lemma generate_qr_base64_decodes
    (qr_png : json -> exn + list byte) (data : json) (png : list byte)
    (st : State) :
  qr_png data = inr png ->
  exists img_str,
    generate_qr_base64 qr_png data st = (inr img_str, st) /\
    img_str = b64encode png /\
    b64decode img_str = inr png.
Proof.
  intros Hpng. exists (b64encode png).
  unfold generate_qr_base64. rewrite bind_eq, Hpng.
  split; [reflexivity |]. split; [reflexivity | apply b64decode_b64encode].
Qed.

(** * Further properties of the code *)

(** ** Where the client looks for its credentials *)

Lemma append_step (c : ascii) (a b : string) :
  (String c a ++ b)%string = String c (a ++ b).
Proof. reflexivity. Qed.

Lemma append_assoc (a b c : string) :
  ((a ++ b) ++ c)%string = (a ++ (b ++ c))%string.
Proof.
  induction a as [| x a IH]; [reflexivity |].
  now rewrite !append_step, IH.
Qed.

Lemma append_not_empty (a : string) (c : ascii) (b : string) :
  (a ++ String c b)%string <> EmptyString.
Proof. destruct a; discriminate. Qed.

Lemma ends_with_slash_append (a : string) (c : ascii) (b : string) :
  ends_with_slash (a ++ String c b) = ends_with_slash (String c b).
Proof.
  unfold ends_with_slash.
  induction a as [| x a IH]; [reflexivity |].
  rewrite append_step. rewrite <- IH.
  pose proof (append_not_empty a c b) as Hne.
  destruct (a ++ String c b)%string as [| y s]; [contradiction |].
  cbn [String.length]. now rewrite !Nat.sub_1_r.
Qed.

Lemma path_join_relative (a : string) (c : ascii) (b : string) :
  String.eqb a EmptyString = false ->
  ends_with_slash a = false ->
  Ascii.eqb c "/" = false ->
  path_join a (String c b) = (a ++ "/" ++ String c b)%string.
Proof.
  intros Ha Hslash Hc. unfold path_join.
  cbn [String.prefix].
  destruct (ascii_dec "/" c) as [<- | _]; [discriminate Hc |].
  now rewrite Ha, Hslash.
Qed.

(** With no override in the environment, and the script in a directory
    other than the root, the client takes the certificate and the macaroon
    from the directory [config] beside the directory of the script, and
    talks to the local node on port 8083. *)
Theorem LNDClient_init_defaults (w : World) :
  environ w "LND_CERT_PATH" = None ->
  environ w "LND_MACAROON_PATH" = None ->
  environ w "LND_REST_API" = None ->
  String.eqb (base_path w) EmptyString = false ->
  ends_with_slash (base_path w) = false ->
  LNDClient_init w
  = mkLNDClient (base_path w ++ "/../config/tls.cert")
      (base_path w ++ "/../config/admin.macaroon")
      "https://127.0.0.1:8083".
Proof.
  intros Hcert Hmac Hapi Hbase Hslash.
  unfold LNDClient_init, environ_get. rewrite Hcert, Hmac, Hapi.
  rewrite (path_join_relative (base_path w) "." "." Hbase Hslash eq_refl).
  assert (Hdir : forall name c,
             Ascii.eqb c "/" = false ->
             path_join (path_join (base_path w ++ "/" ++ "..") "config")
               (String c name)
             = (base_path w ++ "/../config/" ++ String c name)%string).
  { intros name c Hc.
    rewrite (path_join_relative _ "c" "onfig");
      [| destruct (base_path w); reflexivity
       | apply (ends_with_slash_append (base_path w) "/" "..")
       | reflexivity].
    rewrite path_join_relative;
      [| destruct (base_path w); reflexivity
       | rewrite append_assoc;
         apply (ends_with_slash_append (base_path w) "/" "../config")
       | exact Hc].
    now rewrite !append_assoc. }
  now rewrite !Hdir.
Qed.

Lemma LNDClient_init_defaults_witness :
  environ mock_world "LND_CERT_PATH" = None /\
  environ mock_world "LND_MACAROON_PATH" = None /\
  environ mock_world "LND_REST_API" = None /\
  String.eqb (base_path mock_world) EmptyString = false /\
  ends_with_slash (base_path mock_world) = false /\
  LNDClient_init mock_world
  = mkLNDClient "/srv/backend/py/../config/tls.cert"
      "/srv/backend/py/../config/admin.macaroon"
      "https://127.0.0.1:8083".
Proof.
  repeat (split; [reflexivity |]).
  apply (LNDClient_init_defaults mock_world); reflexivity.
Defined.

(** ** The authentication header *)

Lemma hex_length (bs : list byte) :
  String.length (hex bs) = (2 * List.length bs)%nat.
Proof.
  induction bs as [| b bs IH]; [reflexivity |].
  cbn [hex String.length List.length]. rewrite IH. lia.
Qed.

Lemma hex_digits (bs : list byte) : all_hex_digits (hex bs) = true.
Proof.
  induction bs as [| b bs IH]; [reflexivity |].
  cbn [hex all_hex_digits]. rewrite IH. now destruct b.
Qed.

(** When the macaroon can be read, [get_headers] gives one header,
    [Grpc-Metadata-macaroon], whose value is the macaroon written with two
    lower case hexadecimal digits for each byte: nothing of the macaroon
    is lost, it can be read back from the header. *)
Theorem get_headers_macaroon_hex
    (w : World) (self : LNDClient) (st : State) (macaroon : list byte) :
  read_file w (macaroon_path self) = inr macaroon ->
  exists value,
    fst (get_headers w self st) = inr [("Grpc-Metadata-macaroon", value)] /\
    unhex value = macaroon /\
    String.length value = (2 * List.length macaroon)%nat /\
    all_hex_digits value = true.
Proof.
  intros Hread. exists (hex macaroon).
  unfold get_headers. rewrite bind_eq. unfold open_read. rewrite Hread.
  repeat split; [apply unhex_hex | apply hex_length | apply hex_digits].
Qed.

Lemma get_headers_macaroon_hex_witness :
  read_file mock_world (macaroon_path sample_client) = inr macaroon_sample /\
  exists value,
    fst (get_headers mock_world sample_client (initial []))
    = inr [("Grpc-Metadata-macaroon", value)] /\
    unhex value = macaroon_sample /\
    String.length value = (2 * List.length macaroon_sample)%nat /\
    all_hex_digits value = true.
Proof.
  split; [reflexivity |].
  apply (get_headers_macaroon_hex mock_world sample_client (initial [])
           macaroon_sample).
  reflexivity.
Defined.

(** ** What a call of the request wrapper touches *)

Lemma _request_frame
    (w : World) (self : LNDClient) (method endpoint : string)
    (data : option json) (st : State) :
  stdin (snd (_request w self method endpoint data st)) = stdin st /\
  stdout (snd (_request w self method endpoint data st)) = stdout st /\
  opened (snd (_request w self method endpoint data st))
  = (opened st ++ [macaroon_path self])%list.
Proof.
  unfold _request, get_headers.
  rewrite !bind_eq. unfold open_read.
  destruct (read_file w (macaroon_path self)) as [e | macaroon];
    [now repeat split |].
  cbn [ret]. rewrite bind_eq, try_except_eq. unfold requests_request.
  cbn [requests].
  destruct (http w (requests st) _) as [e | r].
  - destruct (is_RequestException e); now repeat split.
  - rewrite try_except_eq, bind_eq. unfold raise_for_status.
    destruct (truthy _); [now repeat split |].
    cbn [ret]. unfold response_json.
    destruct (json_body r) as [e | v]; [| now repeat split].
    cbn [raise]. destruct (is_RequestException e); now repeat split.
Qed.

(** A call of [_request] reads nothing from the console and prints nothing
    to standard output; it opens one file, the macaroon, anew at each
    call; and it sends at most one request: whatever fails, nothing is
    tried a second time. *)
Theorem _request_footprint
    (w : World) (self : LNDClient) (method endpoint : string)
    (data : option json) (st : State) :
  let after := snd (_request w self method endpoint data st) in
  stdin after = stdin st /\
  stdout after = stdout st /\
  opened after = (opened st ++ [macaroon_path self])%list /\
  exists sent,
    requests after = (requests st ++ sent)%list /\
    (List.length sent <= 1)%nat /\
    (forall rq, In rq sent ->
       req_method rq = method /\
       req_url rq = (api_endpoint self ++ endpoint)%string /\
       req_json rq = data /\
       req_verify rq = cert_path self).
Proof.
  intros after; subst after.
  destruct (_request_frame w self method endpoint data st) as (Hin & Hout & Hop).
  repeat (split; [assumption |]).
  destruct (read_file w (macaroon_path self)) as [e | macaroon] eqn:Hread.
  - exists []. rewrite (_request_unreadable _ _ _ _ _ _ _ Hread).
    cbn. rewrite app_nil_r. repeat split; [lia | contradiction..].
  - exists [request_of self method endpoint data macaroon].
    rewrite (_request_sends _ _ _ _ _ _ _ Hread).
    repeat split; [cbn; lia | | | |];
      destruct H as [<- | []]; reflexivity.
Qed.

(** [_request] returns a value in one case only, and always in that
    case: the macaroon could be read, a response came back, its status is
    outside 400 to 599, and its body decodes as JSON; the value is the
    decoded body.  When it returns, it has written nothing to the error
    stream. *)
Theorem _request_returns_iff
    (w : World) (self : LNDClient) (method endpoint : string)
    (data : option json) (st : State) (v : json) :
  (fst (_request w self method endpoint data st) = inr v
   <->
   exists macaroon r,
     read_file w (macaroon_path self) = inr macaroon /\
     http w (requests st) (request_of self method endpoint data macaroon)
     = Responds r /\
     ~ 400 <= status_code r < 600 /\
     json_body r = inr v) /\
  (fst (_request w self method endpoint data st) = inr v ->
   stderr (snd (_request w self method endpoint data st)) = stderr st).
Proof.
  assert (Honly : fst (_request w self method endpoint data st) = inr v ->
                  exists macaroon r,
                    read_file w (macaroon_path self) = inr macaroon /\
                    http w (requests st)
                      (request_of self method endpoint data macaroon)
                    = Responds r /\
                    ~ 400 <= status_code r < 600 /\
                    json_body r = inr v).
  { intros Hret.
    destruct (read_file w (macaroon_path self)) as [e | macaroon] eqn:Hread.
    { rewrite (_request_unreadable _ _ _ _ _ _ _ Hread) in Hret.
      discriminate Hret. }
    destruct (http w (requests st)
                (request_of self method endpoint data macaroon))
      as [e | r] eqn:Hhttp.
    { destruct (is_RequestException e) eqn:Hcls.
      - rewrite (_request_no_response _ _ _ _ _ _ _ _ Hread Hhttp Hcls)
          in Hret. discriminate Hret.
      - rewrite (_request_library_raises _ _ _ _ _ _ _ _ Hread Hhttp Hcls)
          in Hret. discriminate Hret. }
    assert (Hdec : 400 <= status_code r < 600 \/ ~ 400 <= status_code r < 600)
      by lia.
    destruct Hdec as [Hstatus | Hstatus].
    { pose proof (_request_error_status _ _ _ _ _ _ _ _ Hread Hhttp Hstatus)
        as Herr.
      cbv zeta in Herr. rewrite Herr in Hret. discriminate Hret. }
    destruct (json_body r) as [e | v'] eqn:Hbody.
    + rewrite (_request_body_raises _ _ _ _ _ _ _ _ _ Hread Hhttp Hstatus
                 Hbody) in Hret. discriminate Hret.
    + rewrite (_request_returns _ _ _ _ _ _ _ _ _ Hread Hhttp Hstatus Hbody)
        in Hret.
      injection Hret as <-. now exists macaroon, r. }
  split; [split; [exact Honly |] |].
  - intros (macaroon & r & Hread & Hhttp & Hstatus & Hbody).
    now rewrite (_request_returns _ _ _ _ _ _ _ _ _ Hread Hhttp Hstatus Hbody).
  - intros Hret.
    destruct (Honly Hret) as (macaroon & r & Hread & Hhttp & Hstatus & Hbody).
    now rewrite (_request_returns _ _ _ _ _ _ _ _ _ Hread Hhttp Hstatus Hbody).
Qed.

(** A response whose body is no JSON: the exception [response.json()]
    raises is the one that reaches the caller, and when it is a
    [RequestException] the handler has first written it and the text of
    the body to the error stream. *)
Theorem _request_body_not_json
    (w : World) (self : LNDClient) (method endpoint : string)
    (data : option json) (st : State) (macaroon : list byte) (r : Response)
    (e : exn) :
  read_file w (macaroon_path self) = inr macaroon ->
  http w (requests st) (request_of self method endpoint data macaroon)
  = Responds r ->
  ~ 400 <= status_code r < 600 ->
  json_body r = inl e ->
  fst (_request w self method endpoint data st) = inl e /\
  stderr (snd (_request w self method endpoint data st))
  = if is_RequestException e
    then (stderr st ++ [("Error connecting to LND: " ++ exn_msg e)%string;
                        ("Response: " ++ text r)%string])%list
    else stderr st.
Proof.
  intros Hread Hhttp Hstatus Hbody.
  now rewrite (_request_body_raises _ _ _ _ _ _ _ _ _ Hread Hhttp Hstatus
                 Hbody).
Qed.

Lemma _request_body_not_json_witness :
  read_file html_world (macaroon_path sample_client) = inr macaroon_sample /\
  http html_world []
    (request_of sample_client "GET" "/v1/getinfo" None macaroon_sample)
  = Responds html_response /\
  ~ 400 <= status_code html_response < 600 /\
  json_body html_response
  = inl (mkExn JSONDecodeError "Expecting value: line 1 column 1 (char 0)") /\
  fst (_request html_world sample_client "GET" "/v1/getinfo" None (initial []))
  = inl (mkExn JSONDecodeError "Expecting value: line 1 column 1 (char 0)") /\
  stderr (snd (_request html_world sample_client "GET" "/v1/getinfo" None
                 (initial [])))
  = ["Error connecting to LND: Expecting value: line 1 column 1 (char 0)";
     "Response: <html>gateway</html>"].
Proof.
  split; [reflexivity |]. split; [reflexivity |]. split; [cbn; lia |].
  split; [reflexivity |].
  apply (_request_body_not_json html_world sample_client "GET" "/v1/getinfo"
           None (initial []) macaroon_sample html_response
           (mkExn JSONDecodeError "Expecting value: line 1 column 1 (char 0)"));
    [reflexivity | reflexivity | cbn; lia | reflexivity].
Defined.

(** ** The info query *)

(** [get_info] sends one request, a GET to the path /v1/getinfo with no
    body, carrying the macaroon header and the path of the certificate. *)
Theorem get_info_sends_get
    (w : World) (self : LNDClient) (st : State) (macaroon : list byte) :
  read_file w (macaroon_path self) = inr macaroon ->
  requests (snd (get_info w self st))
  = (requests st
       ++ [mkRequest "GET" (api_endpoint self ++ "/v1/getinfo") None
             [("Grpc-Metadata-macaroon", hex macaroon)] (cert_path self)])%list.
Proof.
  intros Hread. unfold get_info.
  now rewrite (_request_sends _ _ _ _ _ _ _ Hread).
Qed.

Lemma get_info_sends_get_witness :
  read_file mock_world (macaroon_path sample_client) = inr macaroon_sample /\
  requests (snd (get_info mock_world sample_client (initial [])))
  = [mkRequest "GET" "https://127.0.0.1:8083/v1/getinfo" None
       [("Grpc-Metadata-macaroon", "0201036c6e64")]
       "/srv/backend/py/../config/tls.cert"].
Proof.
  split; [reflexivity |].
  apply (get_info_sends_get mock_world sample_client (initial [])
           macaroon_sample).
  reflexivity.
Defined.

(** ** The JSON command line program, branch by branch *)

(** What [_request] comes to with a node that answers the endpoint. *)
Lemma _request_node_returns
    (w : World) (method endpoint : string) (data : option json) (st : State)
    (macaroon : list byte) (v : json) :
  read_file w (macaroon_path (LNDClient_init w)) = inr macaroon ->
  node_returns w endpoint v ->
  _request w (LNDClient_init w) method endpoint data st
  = (inr v,
     mkState (stdin st) (stdout st) (stderr st)
       (opened st ++ [macaroon_path (LNDClient_init w)])
       (requests st
          ++ [request_of (LNDClient_init w) method endpoint data macaroon])).
Proof.
  intros Hread Hnode.
  destruct (Hnode (requests st)
              (request_of (LNDClient_init w) method endpoint data macaroon)
              eq_refl) as (r & Hhttp & Hstatus & Hbody).
  apply (_request_returns _ _ _ _ _ _ _ r _ Hread Hhttp); [lia | exact Hbody].
Qed.

Lemma dict_lookup_set_same (key : string) (v : json) (kv : list (string * json)) :
  dict_lookup key (dict_set key v kv) = Some v.
Proof.
  induction kv as [| [k v0] kv IH]; cbn.
  - now rewrite String.eqb_refl.
  - destruct (String.eqb k key) eqn:Hk; cbn; now rewrite Hk.
Qed.

Lemma dict_lookup_set_other (key other : string) (v : json)
    (kv : list (string * json)) :
  other <> key ->
  dict_lookup other (dict_set key v kv) = dict_lookup other kv.
Proof.
  intros Hne. induction kv as [| [k v0] kv IH]; cbn.
  - destruct (String.eqb_spec key other); [congruence | reflexivity].
  - destruct (String.eqb_spec k key) as [-> | Hk]; cbn.
    + destruct (String.eqb_spec key other); [congruence | reflexivity].
    + now rewrite IH.
Qed.

(** The subcommand info, with a node that answers: the document the node
    returned is printed as the one line of output, and the program ends
    with the status 0 after a single request. *)
Theorem lnd_client_info
    (qr_png : json -> exn + list byte) (w : World) (amount : option Z)
    (memo : string) (st : State) (macaroon : list byte) (info : json) :
  read_file w (macaroon_path (LNDClient_init w)) = inr macaroon ->
  node_returns w "/v1/getinfo" info ->
  let run := lnd_client_main qr_png w (mkCliArgs Info amount memo) st in
  exit_status (fst run) = 0 /\
  stdout (snd run) = (stdout st ++ [OutJson info])%list /\
  requests (snd run)
  = (requests st
       ++ [request_of (LNDClient_init w) "GET" "/v1/getinfo" None macaroon])%list.
Proof.
  intros Hread Hnode run; subst run.
  unfold lnd_client_main, lnd_client_try, get_info. cbn [args_command].
  rewrite try_except_eq, bind_eq.
  rewrite (_request_node_returns _ _ _ _ _ _ _ Hread Hnode).
  now repeat split.
Qed.

Lemma lnd_client_info_witness :
  read_file mock_world (macaroon_path (LNDClient_init mock_world))
  = inr macaroon_sample /\
  node_returns mock_world "/v1/getinfo" testnode_info /\
  let run := lnd_client_main sample_png mock_world
               (mkCliArgs Info None "Donation") (initial []) in
  exit_status (fst run) = 0 /\
  stdout (snd run) = [OutJson testnode_info] /\
  requests (snd run)
  = [request_of (LNDClient_init mock_world) "GET" "/v1/getinfo" None
       macaroon_sample].
Proof.
  split; [reflexivity |]. split; [exact mock_node_returns_info |].
  apply (lnd_client_info sample_png mock_world None "Donation" (initial [])
           macaroon_sample testnode_info);
    [reflexivity | exact mock_node_returns_info].
Defined.

(** The subcommand invoice with an amount other than 0, a node that
    returns a document with a payment request, and a picture made of it:
    the one line printed is the document of the node with one more key,
    [qr_code_base64]; every other key keeps its value, and the new value
    is base 64 text that decodes to the bytes of the picture.  The status
    is 0. *)
Theorem lnd_client_invoice_with_qr
    (qr_png : json -> exn + list byte) (w : World) (amount : Z) (memo : string)
    (st : State) (macaroon : list byte) (kv : list (string * json))
    (payment_request : json) (png : list byte) :
  amount <> 0 ->
  read_file w (macaroon_path (LNDClient_init w)) = inr macaroon ->
  node_returns w "/v1/invoices" (JObj kv) ->
  dict_lookup "payment_request" kv = Some payment_request ->
  truthy payment_request = true ->
  qr_png payment_request = inr png ->
  let run := lnd_client_main qr_png w (mkCliArgs Invoice (Some amount) memo) st in
  exists printed qr_code,
    exit_status (fst run) = 0 /\
    stdout (snd run) = (stdout st ++ [OutJson (JObj printed)])%list /\
    dict_lookup "qr_code_base64" printed = Some (JStr qr_code) /\
    qr_code = b64encode png /\
    canonical_b64 qr_code = true /\
    b64decode qr_code = inr png /\
    forall key, key <> "qr_code_base64"%string ->
                dict_lookup key printed = dict_lookup key kv.
Proof.
  intros Hamount Hread Hnode Hlookup Htruthy Hpng run; subst run.
  exists (dict_set "qr_code_base64" (JStr (b64encode png)) kv), (b64encode png).
  unfold lnd_client_main, lnd_client_try, add_invoice. cbn [args_command args_amount args_memo].
  replace (truthy (JInt amount)) with true
    by (symmetry; cbn; now apply negb_true_iff, Z.eqb_neq).
  cbn [negb].
  rewrite try_except_eq, bind_eq.
  rewrite (_request_node_returns _ _ _ _ _ _ _ Hread Hnode).
  unfold get_method. rewrite Hlookup.
  rewrite bind_eq. cbn [ret]. rewrite Htruthy.
  unfold generate_qr_base64. rewrite !bind_eq. rewrite Hpng. cbn.
  repeat split.
  - apply dict_lookup_set_same.
  - now destruct (b64encode_decodes (List.length png) png 0%N 0%nat 0%nat
                    (le_n _)) as (Hcan & _).
  - apply b64decode_b64encode.
  - intros key Hkey. now apply dict_lookup_set_other.
Qed.

Lemma lnd_client_invoice_with_qr_witness :
  21 <> 0 /\
  read_file mock_world (macaroon_path (LNDClient_init mock_world))
  = inr macaroon_sample /\
  node_returns mock_world "/v1/invoices" testnode_invoice /\
  dict_lookup "payment_request"
    [("payment_request", JStr "lnbc1..."); ("r_hash", JStr "AAECAw==")]
  = Some (JStr "lnbc1...") /\
  truthy (JStr "lnbc1...") = true /\
  sample_png (JStr "lnbc1...") = inr [x89; x50; x4e] /\
  let run := lnd_client_main sample_png mock_world
               (mkCliArgs Invoice (Some 21) "Donation") (initial []) in
  exists printed qr_code,
    exit_status (fst run) = 0 /\
    stdout (snd run) = [OutJson (JObj printed)] /\
    dict_lookup "qr_code_base64" printed = Some (JStr qr_code) /\
    qr_code = b64encode [x89; x50; x4e] /\
    canonical_b64 qr_code = true /\
    b64decode qr_code = inr [x89; x50; x4e] /\
    forall key, key <> "qr_code_base64"%string ->
                dict_lookup key printed
                = dict_lookup key
                    [("payment_request", JStr "lnbc1...");
                     ("r_hash", JStr "AAECAw==")].
Proof.
  split; [lia |]. split; [reflexivity |].
  split; [exact mock_node_returns_invoice |].
  split; [reflexivity |]. split; [reflexivity |]. split; [reflexivity |].
  apply (lnd_client_invoice_with_qr sample_png mock_world 21 "Donation"
           (initial []) macaroon_sample
           [("payment_request", JStr "lnbc1..."); ("r_hash", JStr "AAECAw==")]
           (JStr "lnbc1...") [x89; x50; x4e]);
    [lia | reflexivity | exact mock_node_returns_invoice
     | reflexivity | reflexivity | reflexivity].
Defined.

(** The subcommand invoice when the document of the node has no payment
    request, or an empty one: the invoice request has been sent, the one
    line printed is an error object that carries the document under the
    key [response], and the status is 1. *)
Theorem lnd_client_invoice_without_payment_request
    (qr_png : json -> exn + list byte) (w : World) (amount : Z) (memo : string)
    (st : State) (macaroon : list byte) (kv : list (string * json)) :
  amount <> 0 ->
  read_file w (macaroon_path (LNDClient_init w)) = inr macaroon ->
  node_returns w "/v1/invoices" (JObj kv) ->
  match dict_lookup "payment_request" kv with
  | Some payment_request => truthy payment_request = false
  | None => True
  end ->
  let run := lnd_client_main qr_png w (mkCliArgs Invoice (Some amount) memo) st in
  exit_status (fst run) = 1 /\
  stdout (snd run)
  = (stdout st
       ++ [OutJson
             (JObj [("error",
                     JStr "Failed to get payment request from LND response");
                    ("response", JObj kv)])])%list /\
  requests (snd run)
  = (requests st
       ++ [request_of (LNDClient_init w) "POST" "/v1/invoices"
             (Some (JObj [("value", JInt amount); ("memo", JStr memo)]))
             macaroon])%list.
Proof.
  intros Hamount Hread Hnode Hlookup run; subst run.
  unfold lnd_client_main, lnd_client_try, add_invoice.
  cbn [args_command args_amount args_memo].
  replace (truthy (JInt amount)) with true
    by (symmetry; cbn; now apply negb_true_iff, Z.eqb_neq).
  cbn [negb].
  rewrite try_except_eq, bind_eq.
  rewrite (_request_node_returns _ _ _ _ _ _ _ Hread Hnode).
  unfold get_method.
  destruct (dict_lookup "payment_request" kv) as [payment_request |].
  - rewrite bind_eq. cbn [ret]. rewrite Hlookup. now repeat split.
  - now repeat split.
Qed.

Lemma lnd_client_invoice_without_payment_request_witness :
  21 <> 0 /\
  read_file bare_world (macaroon_path (LNDClient_init bare_world))
  = inr macaroon_sample /\
  node_returns bare_world "/v1/invoices" (JObj [("r_hash", JStr "AAECAw==")]) /\
  match dict_lookup "payment_request" [("r_hash", JStr "AAECAw==")] with
  | Some payment_request => truthy payment_request = false
  | None => True
  end /\
  let run := lnd_client_main sample_png bare_world
               (mkCliArgs Invoice (Some 21) "Donation") (initial []) in
  exit_status (fst run) = 1 /\
  stdout (snd run)
  = [OutJson
       (JObj [("error",
               JStr "Failed to get payment request from LND response");
              ("response", JObj [("r_hash", JStr "AAECAw==")])])] /\
  requests (snd run)
  = [request_of (LNDClient_init bare_world) "POST" "/v1/invoices"
       (Some (JObj [("value", JInt 21); ("memo", JStr "Donation")]))
       macaroon_sample].
Proof.
  assert (Hnode : node_returns bare_world "/v1/invoices"
                    (JObj [("r_hash", JStr "AAECAw==")])).
  { intros history rq Hurl.
    exists (ok_response (JObj [("r_hash", JStr "AAECAw==")])).
    cbn in *. unfold bare_node. rewrite Hurl. repeat split; cbn; lia. }
  split; [lia |]. split; [reflexivity |]. split; [exact Hnode |].
  split; [exact I |].
  apply (lnd_client_invoice_without_payment_request sample_png bare_world 21
           "Donation" (initial []) macaroon_sample
           [("r_hash", JStr "AAECAw==")]);
    [lia | reflexivity | exact Hnode | exact I].
Defined.

(** ** The JSON command line program, as a whole *)

(** Whatever the subcommand, the arguments, the node and the image
    libraries do, the program reads nothing from the console and prints
    exactly one JSON value; it ends with the status 0 or 1, and with the
    status 1 the value printed is an object with the key [error]. *)
Theorem lnd_client_main_one_line
    (qr_png : json -> exn + list byte) (w : World) (args : cli_args)
    (st : State) :
  world_raises_Exception w ->
  renderer_raises_Exception qr_png ->
  let run := lnd_client_main qr_png w args st in
  stdin (snd run) = stdin st /\
  exists v,
    stdout (snd run) = (stdout st ++ [OutJson v])%list /\
    (exit_status (fst run) = 0 \/
     exit_status (fst run) = 1 /\
     exists kv, v = JObj kv /\ dict_lookup "error" kv <> None).
Proof.
  intros Hworld Hrenderer run; subst run.
  unfold lnd_client_main. rewrite try_except_eq. unfold lnd_client_try.
  destruct args as [cmd amount memo]; cbn [args_command args_amount args_memo].
  set (client := LNDClient_init w).
  assert (Hreq : forall method endpoint data,
             let r := _request w client method endpoint data st in
             stdin (snd r) = stdin st /\ stdout (snd r) = stdout st /\
             forall e, fst r = inl e -> is_Exception e = true).
  { intros method endpoint data r; subst r.
    destruct (_request_frame w client method endpoint data st)
      as (Hin & Hout & _).
    repeat split; [assumption.. |]. intros e He.
    destruct (_request w client method endpoint data st) as [r s1] eqn:Hrun.
    cbn in He; subst r.
    exact (raises_only__request w Hworld client method endpoint data _ _ _ Hrun). }
  assert (Herror : forall s1 msg,
             stdin s1 = stdin st -> stdout s1 = stdout st ->
             let r := (print_json (JObj [("error", JStr msg)]) ;;
                       @sys_exit unit 1) s1 in
             stdin (snd r) = stdin st /\
             exists v,
               stdout (snd r) = (stdout st ++ [OutJson v])%list /\
               (exit_status (fst r) = 0 \/
                exit_status (fst r) = 1 /\
                exists kv, v = JObj kv /\ dict_lookup "error" kv <> None)).
  { intros s1 msg Hin Hout r; subst r. cbn.
    split; [exact Hin |]. eexists. rewrite Hout. split; [reflexivity |].
    right. split; [reflexivity |]. eexists. split; [reflexivity |].
    cbn. discriminate. }
  destruct cmd.
  - rewrite bind_eq. unfold get_info.
    destruct (Hreq "GET" "/v1/getinfo" None) as (Hin & Hout & Hexn).
    destruct (_request w client "GET" "/v1/getinfo" None st) as [[e | info] s1];
      cbn [fst snd] in *.
    + rewrite (Hexn e eq_refl). now apply Herror.
    + cbn. split; [exact Hin |]. exists info. rewrite Hout. now split; [| left].
  - destruct amount as [amount |];
      [destruct (truthy (JInt amount)); cbn [negb] |];
      try (unfold amount_missing; now apply (Herror st)).
    rewrite bind_eq. unfold add_invoice.
    match goal with
    | |- context [_request w client ?m ?e ?d st] =>
        destruct (Hreq m e d) as (Hin & Hout & Hexn);
        destruct (_request w client m e d st) as [[e0 | invoice] s1];
        cbn [fst snd] in *
    end.
    + rewrite (Hexn e0 eq_refl). now apply Herror.
    + rewrite bind_eq. unfold get_method.
      destruct invoice as [| b | z | f | s | l | kv];
        try (cbn [raise is_Exception exn_cls]; now apply Herror).
      assert (Hfalse : forall missing : json,
                 let r := (print_json
                             (JObj [("error",
                                     JStr "Failed to get payment request from LND response");
                                    ("response", JObj kv)]) ;;
                           @sys_exit unit 1) s1 in
                 stdin (snd r) = stdin st /\
                 exists v,
                   stdout (snd r) = (stdout st ++ [OutJson v])%list /\
                   (exit_status (fst r) = 0 \/
                    exit_status (fst r) = 1 /\
                    exists kv, v = JObj kv /\ dict_lookup "error" kv <> None)).
      { intros _ r; subst r. cbn.
        split; [exact Hin |]. eexists. rewrite Hout. split; [reflexivity |].
        right. split; [reflexivity |]. eexists. split; [reflexivity |].
        cbn. discriminate. }
      assert (Hany : forall payment_request,
                 let r :=
                   match
                     (if truthy payment_request
                      then
                        qr_code <- generate_qr_base64 qr_png payment_request ;;
                        invoice <- setitem (JObj kv) "qr_code_base64"
                                     (JStr qr_code) ;;
                        print_json invoice
                      else
                        print_json
                          (JObj [("error",
                                  JStr "Failed to get payment request from LND response");
                                 ("response", JObj kv)]) ;;
                        sys_exit 1) s1
                   with
                   | (inl e, s') =>
                       if is_Exception e
                       then (print_json (JObj [("error", JStr (exn_msg e))]) ;;
                             sys_exit 1) s'
                       else (inl e, s')
                   | (inr a, s') => (inr a, s')
                   end in
                 stdin (snd r) = stdin st /\
                 exists v,
                   stdout (snd r) = (stdout st ++ [OutJson v])%list /\
                   (exit_status (fst r) = 0 \/
                    exit_status (fst r) = 1 /\
                    exists kv, v = JObj kv /\ dict_lookup "error" kv <> None)).
      { intros payment_request r; subst r.
        destruct (truthy payment_request).
        - unfold generate_qr_base64. rewrite !bind_eq. unfold lift.
          destruct (qr_png payment_request) as [e | png] eqn:Hpng.
          + cbn [raise]. rewrite (Hrenderer _ _ Hpng). now apply Herror.
          + cbn. split; [exact Hin |]. eexists. rewrite Hout.
            split; [reflexivity |]. now left.
        - exact (Hfalse JNull). }
      destruct (dict_lookup "payment_request" kv) as [payment_request |];
        cbn [ret]; apply Hany.
Qed.

Lemma html_world_raises_Exception : world_raises_Exception html_world.
Proof.
  repeat split.
  - intros path e H. discriminate H.
  - intros history rq e H. discriminate H.
  - intros history rq r e H Hbody. injection H as <-.
    now injection Hbody as <-.
Qed.

Lemma sample_png_raises_Exception : renderer_raises_Exception sample_png.
Proof. intros data e H. discriminate H. Qed.

Lemma lnd_client_main_one_line_witness :
  world_raises_Exception html_world /\
  renderer_raises_Exception sample_png /\
  let run := lnd_client_main sample_png html_world
               (mkCliArgs Invoice (Some 21) "Donation") (initial []) in
  stdin (snd run) = [] /\
  exists v,
    stdout (snd run) = [OutJson v] /\
    (exit_status (fst run) = 0 \/
     exit_status (fst run) = 1 /\
     exists kv, v = JObj kv /\ dict_lookup "error" kv <> None).
Proof.
  split; [exact html_world_raises_Exception |].
  split; [exact sample_png_raises_Exception |].
  apply (lnd_client_main_one_line sample_png html_world
           (mkCliArgs Invoice (Some 21) "Donation") (initial []));
    [exact html_world_raises_Exception | exact sample_png_raises_Exception].
Defined.

(** The JSON program when the macaroon cannot be read, for a subcommand
    that needs the node: the message of the file system error is printed
    in the error object, the status is 1, and nothing is sent. *)
Theorem lnd_client_main_without_macaroon
    (qr_png : json -> exn + list byte) (w : World) (args : cli_args)
    (st : State) (e : exn) :
  read_file w (macaroon_path (LNDClient_init w)) = inl e ->
  is_Exception e = true ->
  args_command args = Info \/
  (exists amount, args_amount args = Some amount /\ amount <> 0) ->
  let run := lnd_client_main qr_png w args st in
  exit_status (fst run) = 1 /\
  stdout (snd run)
  = (stdout st ++ [OutJson (JObj [("error", JStr (exn_msg e))])])%list /\
  requests (snd run) = requests st.
Proof.
  intros Hread Hexn Hargs run; subst run.
  unfold lnd_client_main. rewrite try_except_eq. unfold lnd_client_try.
  destruct args as [cmd amount memo]; cbn [args_command args_amount args_memo] in *.
  destruct cmd.
  - rewrite bind_eq. unfold get_info.
    rewrite (_request_unreadable _ _ _ _ _ _ _ Hread), Hexn.
    now repeat split.
  - destruct Hargs as [Hcmd | (a & -> & Ha)]; [discriminate Hcmd |].
    replace (truthy (JInt a)) with true
      by (symmetry; cbn; now apply negb_true_iff, Z.eqb_neq).
    cbn [negb]. rewrite bind_eq. unfold add_invoice.
    rewrite (_request_unreadable _ _ _ _ _ _ _ Hread), Hexn.
    now repeat split.
Qed.

Lemma lnd_client_main_without_macaroon_witness :
  read_file no_files_world (macaroon_path (LNDClient_init no_files_world))
  = inl no_such_file /\
  is_Exception no_such_file = true /\
  (args_command (mkCliArgs Invoice (Some 21) "Donation") = Info \/
   (exists amount,
       args_amount (mkCliArgs Invoice (Some 21) "Donation") = Some amount
       /\ amount <> 0)) /\
  let run := lnd_client_main sample_png no_files_world
               (mkCliArgs Invoice (Some 21) "Donation") (initial []) in
  exit_status (fst run) = 1 /\
  stdout (snd run)
  = [OutJson (JObj [("error", JStr (exn_msg no_such_file))])] /\
  requests (snd run) = [].
Proof.
  assert (Hargs : args_command (mkCliArgs Invoice (Some 21) "Donation") = Info \/
                  (exists amount,
                      args_amount (mkCliArgs Invoice (Some 21) "Donation")
                      = Some amount /\ amount <> 0)).
  { right. exists 21. split; [reflexivity | lia]. }
  split; [reflexivity |]. split; [reflexivity |]. split; [exact Hargs |].
  apply (lnd_client_main_without_macaroon sample_png no_files_world
           (mkCliArgs Invoice (Some 21) "Donation") (initial []) no_such_file);
    [reflexivity | reflexivity | exact Hargs].
Defined.

(** ** The interactive program, case by case *)

#[local] Arguments LNDClient_init : simpl never.

Lemma get_method_dict (kv : list (string * json)) (key : string)
    (default : json) :
  get_method (JObj kv) key default = ret (dict_get key default kv).
Proof.
  unfold get_method, dict_get. now destruct (dict_lookup key kv).
Qed.

Lemma get_method_not_dict (obj : json) (key : string) (default : json) :
  (forall kv, obj <> JObj kv) ->
  exists e, get_method obj key default = raise e /\ is_Exception e = true.
Proof.
  intros Hobj.
  destruct obj; try (eexists; split; reflexivity).
  now destruct (Hobj kv).
Qed.

(** An amount typed at the prompt that is empty, or that [int] refuses:
    the program says which, asks nothing more, opens no file, sends
    nothing, and ends with the status 0. *)
Theorem main_rejects_amount
    (py_repr : json -> string) (py_int : string -> option Z)
    (w : World) (memo : option string) (st : State)
    (line : string) (rest : list (exn + string)) :
  stdin st = inr line :: rest ->
  line = EmptyString \/ py_int line = None ->
  let run := main py_repr py_int w (mkInvoiceArgs None memo) st in
  fst run = inr tt /\
  stdout (snd run)
  = (stdout st
       ++ [OutPrompt "Enter amount (sats): ";
           OutText (if String.eqb line EmptyString
                    then "Amount is required." else "Invalid amount.")])%list /\
  stdin (snd run) = rest /\
  opened (snd run) = opened st /\
  requests (snd run) = requests st.
Proof.
  intros Hstdin Hline run; subst run.
  unfold main, ask_amount. cbn [arg_amount].
  rewrite bind_eq, try_except_eq, bind_eq. unfold input. rewrite Hstdin.
  cbn [truthy].
  destruct (String.eqb_spec line EmptyString) as [-> | Hne]; cbn [negb].
  - cbn. rewrite <- app_assoc. now repeat split.
  - destruct Hline as [-> | Hint]; [contradiction |].
    rewrite bind_eq. unfold int_of_str. rewrite Hint.
    cbn. rewrite <- app_assoc. now repeat split.
Qed.

Lemma main_rejects_amount_witness :
  stdin (initial ["ten"%string; "tip"%string])
  = [inr "ten"%string; inr "tip"%string] /\
  ("ten"%string = EmptyString \/ (fun _ : string => @None Z) "ten"%string = None) /\
  let run := main (fun _ => EmptyString) (fun _ => None) mock_world
               (mkInvoiceArgs None None) (initial ["ten"; "tip"]) in
  fst run = inr tt /\
  stdout (snd run)
  = [OutPrompt "Enter amount (sats): "; OutText "Invalid amount."] /\
  stdin (snd run) = [inr "tip"%string] /\
  opened (snd run) = [] /\
  requests (snd run) = [].
Proof.
  split; [reflexivity |]. split; [right; reflexivity |].
  apply (main_rejects_amount (fun _ => EmptyString) (fun _ => None) mock_world
           None (initial ["ten"; "tip"]) "ten" [inr "tip"%string]);
    [reflexivity | right; reflexivity].
Defined.

(** No invoice is asked for unless the info query has returned a
    key-value document: when it raises, or returns anything else, the
    program reports the error and ends with the status 0, and the trace of
    requests is as the info query left it. *)
Theorem main_no_invoice_without_info
    (py_repr : json -> string) (py_int : string -> option Z)
    (w : World) (amount : Z) (memo : string) (st : State) :
  world_raises_Exception w ->
  (forall kv, fst (get_info w (LNDClient_init w) st) <> inr (JObj kv)) ->
  let run := main py_repr py_int w (mkInvoiceArgs (Some amount) (Some memo)) st in
  fst run = inr tt /\
  requests (snd run) = requests (snd (get_info w (LNDClient_init w) st)) /\
  exists e,
    stdout (snd run)
    = (stdout st ++ [OutText (nl ++ "Error: " ++ exn_msg e)%string;
                     OutText make_sure])%list.
Proof.
  intros Hworld Hinfo run; subst run.
  unfold main, ask_amount, ask_memo. cbn [arg_amount arg_memo].
  rewrite bind_eq; cbn [ret]. rewrite bind_eq; cbn [ret].
  rewrite try_except_eq. unfold create_invoice_try. rewrite bind_eq.
  destruct (_request_frame w (LNDClient_init w) "GET" "/v1/getinfo" None st)
    as (_ & Hout & _).
  fold (get_info w (LNDClient_init w)) in Hout.
  destruct (get_info w (LNDClient_init w) st) as [[e | info] s1] eqn:Hrun;
    cbn [fst snd] in *.
  - rewrite (raises_only__request w Hworld _ _ _ _ _ _ _ Hrun).
    cbn. rewrite Hout, <- app_assoc. split; [reflexivity |].
    split; [reflexivity |]. now exists e.
  - destruct (get_method_not_dict info "alias" (JStr "unknown"))
      as (e & -> & He).
    { intros kv ->. now destruct (Hinfo kv). }
    rewrite bind_eq. cbn [raise]. rewrite He.
    cbn. rewrite Hout, <- app_assoc. split; [reflexivity |].
    split; [reflexivity |]. now exists e.
Qed.

Lemma main_no_invoice_without_info_witness :
  world_raises_Exception refusing_world /\
  (forall kv,
      fst (get_info refusing_world (LNDClient_init refusing_world) (initial []))
      <> inr (JObj kv)) /\
  let run := main (fun _ => EmptyString) (fun _ => None) refusing_world
               (mkInvoiceArgs (Some 1000) (Some "test")) (initial []) in
  fst run = inr tt /\
  requests (snd run)
  = requests (snd (get_info refusing_world (LNDClient_init refusing_world)
                     (initial []))) /\
  exists e,
    stdout (snd run)
    = [OutText (nl ++ "Error: " ++ exn_msg e)%string; OutText make_sure].
Proof.
  split; [exact refusing_world_raises_Exception |].
  split; [intros kv H; discriminate H |].
  apply (main_no_invoice_without_info (fun _ => EmptyString) (fun _ => None)
           refusing_world 1000 "test" (initial []));
    [exact refusing_world_raises_Exception | intros kv H; discriminate H].
Defined.

(** The flow of the interactive program up to the answer of the node to
    the invoice request. *)
Ltac next :=
  rewrite bind_eq;
  cbn [print ret lift stdin stdout stderr opened requests].

Ltac run_to_invoice Hread Hinfo Hinvoice :=
  unfold main, ask_amount, ask_memo; cbn [arg_amount arg_memo];
  do 2 next;
  rewrite try_except_eq; unfold create_invoice_try, get_info, add_invoice;
  rewrite bind_eq, (_request_node_returns _ _ _ _ _ _ _ Hread Hinfo);
  rewrite bind_eq, get_method_dict; cbn [ret];
  do 2 next;
  rewrite bind_eq, (_request_node_returns _ _ _ _ _ _ _ Hread Hinvoice);
  next.



(** An invoice document without the key [payment_request]: the invoice
    request has been sent and the banner printed when the lookup fails;
    the program reports the key, in quotes, as the error, prints neither
    payment request nor hash, and ends with the status 0. *)
Theorem main_invoice_without_payment_request
    (py_repr : json -> string) (py_int : string -> option Z)
    (w : World) (amount : Z) (memo : string) (st : State)
    (macaroon : list byte) (info invoice : list (string * json)) :
  read_file w (macaroon_path (LNDClient_init w)) = inr macaroon ->
  node_returns w "/v1/getinfo" (JObj info) ->
  node_returns w "/v1/invoices" (JObj invoice) ->
  dict_lookup "payment_request" invoice = None ->
  let run := main py_repr py_int w (mkInvoiceArgs (Some amount) (Some memo)) st in
  fst run = inr tt /\
  stdout (snd run)
  = (stdout st
       ++ map OutText
            [("Connected to LND node: "
                ++ py_str py_repr (dict_get "alias" (JStr "unknown") info))%string;
             ("Creating invoice for " ++ str_of_int amount ++ " sats...")%string;
             (nl ++ "=== INVOICE CREATED ===")%string;
             (nl ++ "Error: 'payment_request'")%string;
             make_sure])%list /\
  requests (snd run)
  = (requests st
       ++ [request_of (LNDClient_init w) "GET" "/v1/getinfo" None macaroon;
           request_of (LNDClient_init w) "POST" "/v1/invoices"
             (Some (JObj [("value", JInt amount); ("memo", JStr memo)]))
             macaroon])%list.
Proof.
  intros Hread Hinfo Hinvoice Hpr run; subst run.
  run_to_invoice Hread Hinfo Hinvoice.
  unfold getitem. rewrite Hpr.
  rewrite bind_eq. cbn [raise is_Exception exn_cls exn_msg].
  next.
  cbn [fst snd stdout requests stdin stderr opened map print].
  rewrite <- !app_assoc. now repeat split.
Qed.

Lemma bare_node_returns_info :
  node_returns bare_world "/v1/getinfo" (JObj [("version", JStr "0.17")]).
Proof.
  intros history rq Hurl. exists (ok_response (JObj [("version", JStr "0.17")])).
  cbn in *. unfold bare_node. rewrite Hurl. repeat split; cbn; lia.
Qed.

Lemma bare_node_returns_invoice :
  node_returns bare_world "/v1/invoices" (JObj [("r_hash", JStr "AAECAw==")]).
Proof.
  intros history rq Hurl.
  exists (ok_response (JObj [("r_hash", JStr "AAECAw==")])).
  cbn in *. unfold bare_node. rewrite Hurl. repeat split; cbn; lia.
Qed.

Lemma main_invoice_without_payment_request_witness :
  read_file bare_world (macaroon_path (LNDClient_init bare_world))
  = inr macaroon_sample /\
  node_returns bare_world "/v1/getinfo" (JObj [("version", JStr "0.17")]) /\
  node_returns bare_world "/v1/invoices" (JObj [("r_hash", JStr "AAECAw==")]) /\
  dict_lookup "payment_request" [("r_hash", JStr "AAECAw==")] = None /\
  let run := main (fun _ => EmptyString) (fun _ => None) bare_world
               (mkInvoiceArgs (Some 1000) (Some "test")) (initial []) in
  fst run = inr tt /\
  stdout (snd run)
  = map OutText
      ["Connected to LND node: unknown"%string;
       "Creating invoice for 1000 sats..."%string;
       (nl ++ "=== INVOICE CREATED ===")%string;
       (nl ++ "Error: 'payment_request'")%string;
       make_sure] /\
  requests (snd run)
  = [request_of (LNDClient_init bare_world) "GET" "/v1/getinfo" None
       macaroon_sample;
     request_of (LNDClient_init bare_world) "POST" "/v1/invoices"
       (Some (JObj [("value", JInt 1000); ("memo", JStr "test")]))
       macaroon_sample].
Proof.
  split; [reflexivity |]. split; [exact bare_node_returns_info |].
  split; [exact bare_node_returns_invoice |]. split; [reflexivity |].
  apply (main_invoice_without_payment_request (fun _ => EmptyString)
           (fun _ => None) bare_world 1000 "test" (initial []) macaroon_sample
           [("version", JStr "0.17")] [("r_hash", JStr "AAECAw==")]);
    [reflexivity | exact bare_node_returns_info
     | exact bare_node_returns_invoice | reflexivity].
Defined.

(** A hash that does not decode, because it is no text or no base 64: the
    payment request has been printed; the program then prints the error
    of the decoder in place of the hash, and neither add index nor
    closing line; the status is 0. *)
Theorem main_hash_not_base64
    (py_repr : json -> string) (py_int : string -> option Z)
    (w : World) (amount : Z) (memo : string) (st : State)
    (macaroon : list byte) (info invoice : list (string * json))
    (payment_request r_hash : json) (e : exn) :
  read_file w (macaroon_path (LNDClient_init w)) = inr macaroon ->
  node_returns w "/v1/getinfo" (JObj info) ->
  node_returns w "/v1/invoices" (JObj invoice) ->
  dict_lookup "payment_request" invoice = Some payment_request ->
  dict_lookup "r_hash" invoice = Some r_hash ->
  b64decode_value r_hash = inl e ->
  let run := main py_repr py_int w (mkInvoiceArgs (Some amount) (Some memo)) st in
  fst run = inr tt /\
  stdout (snd run)
  = (stdout st
       ++ map OutText
            [("Connected to LND node: "
                ++ py_str py_repr (dict_get "alias" (JStr "unknown") info))%string;
             ("Creating invoice for " ++ str_of_int amount ++ " sats...")%string;
             (nl ++ "=== INVOICE CREATED ===")%string;
             ("Payment Request: " ++ py_str py_repr payment_request)%string;
             (nl ++ "Error: " ++ exn_msg e)%string;
             make_sure])%list.
Proof.
  intros Hread Hinfo Hinvoice Hpr Hhash Hdecode run; subst run.
  run_to_invoice Hread Hinfo Hinvoice.
  unfold getitem. rewrite Hpr, Hhash.
  do 3 next. rewrite bind_eq, Hdecode. cbn [lift raise].
  rewrite (b64decode_value_raises _ _ Hdecode).
  next.
  cbn [fst snd stdout requests stdin stderr opened map print].
  rewrite <- !app_assoc. now repeat split.
Qed.

Lemma bad_hash_node_returns_info :
  node_returns bad_hash_world "/v1/getinfo" testnode_info.
Proof.
  intros history rq Hurl. exists (ok_response testnode_info).
  cbn in *. unfold bad_hash_node. rewrite Hurl. repeat split; cbn; lia.
Qed.

Lemma bad_hash_node_returns_invoice :
  node_returns bad_hash_world "/v1/invoices" bad_hash_invoice.
Proof.
  intros history rq Hurl. exists (ok_response bad_hash_invoice).
  cbn in *. unfold bad_hash_node. rewrite Hurl. repeat split; cbn; lia.
Qed.

Lemma main_hash_not_base64_witness :
  read_file bad_hash_world (macaroon_path (LNDClient_init bad_hash_world))
  = inr macaroon_sample /\
  node_returns bad_hash_world "/v1/getinfo"
    (JObj [("alias", JStr "testnode"); ("version", JStr "0.17")]) /\
  node_returns bad_hash_world "/v1/invoices"
    (JObj [("payment_request", JStr "lnbc1..."); ("r_hash", JStr "AAE")]) /\
  dict_lookup "payment_request"
    [("payment_request", JStr "lnbc1..."); ("r_hash", JStr "AAE")]
  = Some (JStr "lnbc1...") /\
  dict_lookup "r_hash"
    [("payment_request", JStr "lnbc1..."); ("r_hash", JStr "AAE")]
  = Some (JStr "AAE") /\
  b64decode_value (JStr "AAE") = inl (mkExn BinasciiError "Incorrect padding") /\
  let run := main (fun _ => EmptyString) (fun _ => None) bad_hash_world
               (mkInvoiceArgs (Some 1000) (Some "test")) (initial []) in
  fst run = inr tt /\
  stdout (snd run)
  = map OutText
      ["Connected to LND node: testnode"%string;
       "Creating invoice for 1000 sats..."%string;
       (nl ++ "=== INVOICE CREATED ===")%string;
       "Payment Request: lnbc1..."%string;
       (nl ++ "Error: Incorrect padding")%string;
       make_sure].
Proof.
  split; [reflexivity |]. split; [exact bad_hash_node_returns_info |].
  split; [exact bad_hash_node_returns_invoice |].
  split; [reflexivity |]. split; [reflexivity |]. split; [reflexivity |].
  apply (main_hash_not_base64 (fun _ => EmptyString) (fun _ => None)
           bad_hash_world 1000 "test" (initial []) macaroon_sample
           [("alias", JStr "testnode"); ("version", JStr "0.17")]
           [("payment_request", JStr "lnbc1..."); ("r_hash", JStr "AAE")]
           (JStr "lnbc1...") (JStr "AAE")
           (mkExn BinasciiError "Incorrect padding"));
    [reflexivity | exact bad_hash_node_returns_info
     | exact bad_hash_node_returns_invoice | reflexivity | reflexivity
     | reflexivity].
Defined.

(** ** The connection test *)



(** ** The text of the QR code *)

Lemma b64encode_length (fuel : nat) :
  forall bs : list byte,
    (List.length bs <= fuel)%nat ->
    String.length (b64encode bs) = (4 * ((List.length bs + 2) / 3))%nat.
Proof.
  induction fuel as [| fuel IH]; intros bs Hlen.
  - destruct bs; [reflexivity | cbn in Hlen; lia].
  - destruct bs as [| a [| b [| c rest]]]; try reflexivity.
    cbn [b64encode String.length List.length].
    rewrite (IH rest) by (cbn in Hlen; lia).
    replace (S (S (S (List.length rest))) + 2)%nat
      with (List.length rest + 2 + 1 * 3)%nat by lia.
    rewrite Nat.div_add by lia. lia.
Qed.

(** [generate_qr_base64] touches nothing; when the image libraries fail,
    their exception is what it raises; otherwise it returns base 64 text
    in canonical form, four characters for every three bytes of the
    picture, the last group padded, that decodes to the bytes of the
    picture. *)
Theorem generate_qr_base64_text
    (qr_png : json -> exn + list byte) (data : json) (st : State) :
  match qr_png data with
  | inl e => generate_qr_base64 qr_png data st = (inl e, st)
  | inr png =>
      exists img_str,
        generate_qr_base64 qr_png data st = (inr img_str, st) /\
        canonical_b64 img_str = true /\
        String.length img_str = (4 * ((List.length png + 2) / 3))%nat /\
        b64decode img_str = inr png
  end.
Proof.
  unfold generate_qr_base64. rewrite bind_eq.
  destruct (qr_png data) as [e | png]; [reflexivity |].
  exists (b64encode png). split; [reflexivity |].
  destruct (b64encode_decodes (List.length png) png 0%N 0%nat 0%nat (le_n _))
    as (Hcan & _).
  repeat split;
    [exact Hcan | now apply (b64encode_length (List.length png))
     | apply b64decode_b64encode].
Qed.
